(** * AnkiGen: the card-generation pipeline of [app.py]

    A shallow embedding of [structured_output_completion], [generate_cards]
    and [export_csv], and the properties of the specification proved (or
    refuted) on it.

    Python values are dynamically typed, and the program guards itself with
    [hasattr] and truthiness tests, so the values exchanged with the
    completion API are modelled by a small universe of dynamic values
    ([pyval]).  Exceptions are explicit ([res]); the API client, the
    notifications of the UI toolkit and the file written by the export step
    live in an explicit [world] threaded through a state-and-exception
    monad. *)

From stdpp Require Import base list strings gmap pretty sorting.
From Stdlib Require Import ZArith Ascii.

Set Warnings "-register-all".

Local Open Scope string_scope.
Local Open Scope list_scope.

(** ** Dynamic values *)

(** The fragment of Python's values the program can observe: [None],
    strings, lists, and plain objects carrying named attributes (pydantic
    models, the completion object and its choices are such objects).  A
    plain object is truthy, has no length, is not subscriptable and not
    iterable. *)
Inductive pyval : Type :=
  | VNone
  | VStr (s : string)
  | VList (items : list pyval)
  | VObj (attrs : list (string * pyval)).

(** Exceptions.  [GrError] is [gr.Error]; where the source formats a caught
    exception into the message ([f"...{e}"]) the cause is kept as such. *)
Inductive exn : Type :=
  | AttributeError (name : string)
  | TypeError (what : string)
  | IndexError (what : string)
  | UnboundLocalError (var : string)
  | ClientError (description : string)
  | GrError (message : string) (cause : option exn).

Inductive res (A : Type) : Type :=
  | Ok (a : A)
  | Exc (e : exn).
Arguments Ok {A} a.
Arguments Exc {A} e.

Definition res_bind {A B} (r : res A) (k : A -> res B) : res B :=
  match r with
  | Ok a => k a
  | Exc e => Exc e
  end.

Declare Scope res_scope.
Delimit Scope res_scope with res.
Notation "x <- r ;; k" := (res_bind r (fun x => k))
  (at level 100, r at next level, right associativity) : res_scope.

Fixpoint res_mapM {A B} (f : A -> res B) (l : list A) : res (list B) :=
  match l with
  | [] => Ok []
  | a :: l' =>
      (b <- f a ;; bs <- res_mapM f l' ;; Ok (b :: bs))%res
  end.

(** ** Built-in operations *)

Fixpoint assoc (name : string) (attrs : list (string * pyval)) : option pyval :=
  match attrs with
  | [] => None
  | (n, v) :: rest => if String.eqb n name then Some v else assoc name rest
  end.

(** [getattr(v, name)] for the attribute names the program uses; none of
    them is an attribute of [None], of a string or of a list. *)
Definition getattr (v : pyval) (name : string) : res pyval :=
  match v with
  | VObj attrs =>
      match assoc name attrs with
      | Some a => Ok a
      | None => Exc (AttributeError name)
      end
  | _ => Exc (AttributeError name)
  end.

(** [hasattr(v, name)]: the attribute lookup does not raise. *)
Definition hasattr (v : pyval) (name : string) : bool :=
  match getattr v name with
  | Ok _ => true
  | Exc _ => false
  end.

(** Truth value, as tested by [not v]. *)
Definition truthy (v : pyval) : bool :=
  match v with
  | VNone => false
  | VStr s => negb (String.eqb s EmptyString)
  | VList items => negb (Nat.eqb (length items) 0)
  | VObj _ => true
  end.

Definition is_None (v : pyval) : bool :=
  match v with
  | VNone => true
  | _ => false
  end.

Definition chars (s : string) : list pyval :=
  (fun c => VStr (String c EmptyString)) <$> String.list_ascii_of_string s.

(** [iter(v)], fully consumed. *)
Definition py_iter (v : pyval) : res (list pyval) :=
  match v with
  | VList items => Ok items
  | VStr s => Ok (chars s)
  | VNone | VObj _ => Exc (TypeError "object is not iterable")
  end.

(** [len(v)]. *)
Definition py_len (v : pyval) : res nat :=
  match v with
  | VList items => Ok (length items)
  | VStr s => Ok (String.length s)
  | VNone | VObj _ => Exc (TypeError "object has no len()")
  end.

(** [v[0]]. *)
Definition getitem0 (v : pyval) : res pyval :=
  match py_iter v with
  | Ok (x :: _) => Ok x
  | Ok [] => Exc (IndexError "index out of range")
  | Exc _ => Exc (TypeError "object is not subscriptable")
  end.

(** [l[:n]]: a negative bound counts from the end. *)
Definition slice_upto {A} (n : Z) (l : list A) : list A :=
  if (0 <=? n)%Z then take (Z.to_nat n) l
  else take (length l - Z.to_nat (- n)) l.

(** [str(n)] of an integer is its decimal rendering. *)
Definition str_int (n : Z) : string := pretty n.
Definition str_nat (n : nat) : string := pretty n.

Fixpoint zeros (n : nat) : string :=
  match n with
  | O => EmptyString
  | S n' => String "0" (zeros n')
  end.

(** [f"{n:0{width}}"] for a non-negative [n]: left-padded with zeros up to
    [width] characters, never truncated. *)
Definition format_zero_padded (n width : nat) : string :=
  zeros (width - String.length (str_nat n)) +:+ str_nat n.

Definition is_space (c : ascii) : bool :=
  let n := nat_of_ascii c in
  (Nat.leb 9 n && Nat.leb n 13) || (Nat.leb 28 n && Nat.leb n 32).

Fixpoint lstrip (s : string) : string :=
  match s with
  | EmptyString => EmptyString
  | String c s' => if is_space c then lstrip s' else s
  end.

Fixpoint rstrip (s : string) : string :=
  match s with
  | EmptyString => EmptyString
  | String c s' =>
      match rstrip s' with
      | EmptyString => if is_space c then EmptyString else String c EmptyString
      | t => String c t
      end
  end.

(** [s.strip()] (ASCII white space). *)
Definition strip (s : string) : string := rstrip (lstrip s).

(** ** The world: API traffic, notifications, files *)

(** The [response_format] handed to the API: the class [Topics] or the
    class [CardList]. *)
Inductive shape : Type := TopicsFormat | CardListFormat.

(** One call of [client.beta.chat.completions.parse]. *)
Record request : Type := {
  req_model : string;
  req_system : string;     (* content of the "system" message *)
  req_user : string;       (* content of the "user" message *)
  req_format : shape
}.

Inductive api_outcome : Type :=
  | Raises (e : exn)
  | Returns (completion : pyval).

(** A client answers a request given the requests issued before it. *)
Definition client : Type := list request -> request -> api_outcome.

(** [gr.Info] and [gr.Warning] display a message and return. *)
Inductive notice : Type :=
  | Info (text : string)
  | Warning (text : string).

(** A pandas [DataFrame]: column labels and data rows. *)
Record dataframe : Type := {
  columns : list string;
  data : list (list pyval)
}.

(** What [to_csv(path, index=False)] leaves in the file: the header line
    followed by one line per data row. *)
Definition csv_lines (d : dataframe) : list (list pyval) :=
  (VStr <$> columns d) :: data d.

Record world : Type := {
  calls : list request;                     (* API calls issued, oldest first *)
  notices : list notice;                    (* notifications shown, oldest first *)
  files : gmap string (list (list pyval))   (* the working directory *)
}.

Definition initial_world : world :=
  {| calls := []; notices := []; files := ∅ |}.

Definition M (A : Type) : Type := world -> res A * world.

Definition ret {A} (a : A) : M A := fun w => (Ok a, w).
Definition raise {A} (e : exn) : M A := fun w => (Exc e, w).
Definition bind {A B} (m : M A) (k : A -> M B) : M B :=
  fun w =>
    match m w with
    | (Ok a, w') => k a w'
    | (Exc e, w') => (Exc e, w')
    end.
(** [try: m  except Exception as e: handler e]. *)
Definition try_except {A} (m : M A) (handler : exn -> M A) : M A :=
  fun w =>
    match m w with
    | (Ok a, w') => (Ok a, w')
    | (Exc e, w') => handler e w'
    end.
Definition lift {A} (r : res A) : M A := fun w => (r, w).

Declare Scope M_scope.
Delimit Scope M_scope with M.
Notation "x <- m ;; k" := (bind m (fun x => k))
  (at level 100, m at next level, right associativity) : M_scope.
Notation "m ;;; k" := (bind m (fun _ => k))
  (at level 100, right associativity) : M_scope.

Definition show (n : notice) (w : world) : world :=
  {| calls := calls w; notices := notices w ++ [n]; files := files w |}.
Definition record_call (r : request) (w : world) : world :=
  {| calls := calls w ++ [r]; notices := notices w; files := files w |}.
Definition record_calls (reqs : list request) (w : world) : world :=
  {| calls := calls w ++ reqs; notices := notices w; files := files w |}.
Definition write_file (path : string) (content : list (list pyval))
    (w : world) : world :=
  {| calls := calls w; notices := notices w;
     files := <[path := content]> (files w) |}.

Definition gr_Info (text : string) : M unit :=
  fun w => (Ok tt, show (Info text) w).
Definition gr_Warning (text : string) : M unit :=
  fun w => (Ok tt, show (Warning text) w).
Definition to_csv (d : dataframe) (path : string) : M unit :=
  fun w => (Ok tt, write_file path (csv_lines d) w).
(** The API call: the request is recorded, the client answers. *)
Definition parse (c : client) (r : request) : M api_outcome :=
  fun w => (Ok (c (calls w) r), record_call r w).

(** ** [structured_output_completion] *)

(** The second [try] block: the inspection of the completion. *)
Definition inspect_completion (completion : pyval) : res pyval :=
  if negb (hasattr completion "choices")
     || negb (match getattr completion "choices" with
              | Ok choices => truthy choices
              | Exc _ => false
              end)
  then Ok VNone
  else
    (choices <- getattr completion "choices" ;;
     first_choice <- getitem0 choices ;;
     if negb (hasattr first_choice "message") then Ok VNone
     else
       message <- getattr first_choice "message" ;;
       if negb (hasattr message "parsed") then Ok VNone
       else getattr message "parsed")%res.

Definition structured_output_completion
    (c : client) (model : string) (response_format : shape)
    (system_prompt user_prompt : string) : M pyval :=
  (outcome <- parse c {| req_model := model;
                         req_system := strip system_prompt;
                         req_user := strip user_prompt;
                         req_format := response_format |} ;;
   match outcome with
   | Raises _ => ret VNone
   | Returns completion =>
       match inspect_completion completion with
       | Ok parsed => ret parsed
       | Exc e => raise (GrError "Processing error: " (Some e))
       end
   end)%M.

(** ** [generate_cards] *)

(** A row [[index, topic, question, answer, explanation, example]], its
    positions named after the columns of the output table. *)
Record row : Type := {
  Index : string;
  Topic : pyval;
  Question : pyval;
  Answer : pyval;
  Explanation : pyval;
  Example : pyval
}.

(** What the function hands back to its caller with [return]. *)
Inductive returned : Type :=
  | Rows (flattened_data : list row)
  | ErrorValue (e : exn).

Definition nl : string := String "010" EmptyString.
Definition dquote : string := String "034" EmptyString.

(** An f-string is the concatenation of its pieces. *)
Definition fstring (pieces : list string) : string :=
  String.concat EmptyString pieces.

(** The variables of the flattening loop that outlive an iteration. *)
Record locals : Type := {
  index : option string;          (* [None]: not assigned yet *)
  flattened_data : list row
}.

(** Body of the inner [for card_index, card in enumerate(..., start=1)]. *)
Definition flatten_card (card_list_index padding : nat) (topic : pyval)
    (card_index : nat) (card : pyval) (st : locals) : res unit * locals :=
  let idx := fstring [str_nat card_list_index; ".";
                      format_zero_padded card_index padding] in
  match (front <- getattr card "front" ;;
         question <- getattr front "question" ;;
         back <- getattr card "back" ;;
         answer <- getattr back "answer" ;;
         back <- getattr card "back" ;;
         explanation <- getattr back "explanation" ;;
         back <- getattr card "back" ;;
         example <- getattr back "example" ;;
         Ok {| Index := idx; Topic := topic; Question := question;
               Answer := answer; Explanation := explanation;
               Example := example |})%res with
  | Ok r =>
      (Ok tt, {| index := Some idx;
                 flattened_data := flattened_data st ++ [r] |})
  | Exc e =>
      (Exc e, {| index := Some idx; flattened_data := flattened_data st |})
  end.

Fixpoint flatten_cards (card_list_index padding : nat) (topic : pyval)
    (card_index : nat) (cards : list pyval) (st : locals)
    : res unit * locals :=
  match cards with
  | [] => (Ok tt, st)
  | card :: rest =>
      match flatten_card card_list_index padding topic card_index card st with
      | (Ok _, st') =>
          flatten_cards card_list_index padding topic (S card_index) rest st'
      | (Exc e, st') => (Exc e, st')
      end
  end.

(** Body of the [try] of the outer flattening loop. *)
Definition flatten_card_list (card_list_index : nat) (card_list : pyval)
    (st : locals) : res unit * locals :=
  match (topic <- getattr card_list "topic" ;;
         cards <- getattr card_list "cards" ;;
         total_cards <- py_len cards ;;
         cards <- getattr card_list "cards" ;;
         items <- py_iter cards ;;
         Ok (topic, total_cards, items))%res with
  | Exc e => (Exc e, st)
  | Ok (topic, total_cards, items) =>
      let padding := String.length (str_nat total_cards) in
      flatten_cards card_list_index padding topic 1 items st
  end.

(** [for card_list_index, card_list in enumerate(all_card_lists, start=1)].
    The handler formats [index] into its message: when no index was ever
    assigned, reading it raises, and nothing catches that. *)
Fixpoint flatten_card_lists (card_list_index : nat)
    (all_card_lists : list pyval) (st : locals) : res (list row) :=
  match all_card_lists with
  | [] => Ok (flattened_data st)
  | card_list :: rest =>
      match flatten_card_list card_list_index card_list st with
      | (Ok _, st') => flatten_card_lists (S card_list_index) rest st'
      | (Exc _, st') =>
          match index st' with
          | None => Exc (UnboundLocalError "index")
          | Some _ => flatten_card_lists (S card_list_index) rest st'
          end
      end
  end.

(** The comprehension
    [[item for subtopic in topics_response.result for item in subtopic.result]]. *)
Definition flat_items (topics_response : pyval) : res (list pyval) :=
  (result <- getattr topics_response "result" ;;
   subtopics <- py_iter result ;;
   groups <- res_mapM (fun subtopic =>
                         r <- getattr subtopic "result" ;;
                         py_iter r) subtopics ;;
   Ok (concat groups))%res.

Section Pipeline.

(** The constructor of the API client, from the credential. *)
Variable OpenAI : string -> client.
(** [format(v)] as an f-string does for a value substituted into it. *)
Variable py_format : pyval -> string.

Definition system_prompt_of (subject preference_prompt : string) : string :=
  fstring [nl;
    "    You are an expert in "; subject;
    ", assisting the user to master the topic while "; nl;
    "    keeping in mind the user's preferences: "; preference_prompt; ".";
    nl; "    "].

Definition topic_prompt_of (topic_number : Z) (subject : string) : string :=
  fstring [nl;
    "    Generate the top "; str_int topic_number;
    " important subjects to know on "; subject; " in "; nl;
    "    order of ascending difficulty."; nl; "    "].

Definition card_prompt_of (cards_per_topic : Z)
    (subject preference_prompt : string) (topic : pyval) : string :=
  fstring [nl;
    "        You are to generate "; str_int cards_per_topic; " cards on ";
    subject; ": "; dquote; py_format topic; dquote; " "; nl;
    "        keeping in mind the user's preferences: "; preference_prompt;
    "."; nl;
    "        "; nl;
    "        Questions should cover both sample problems and concepts."; nl;
    nl;
    "        Use the explanation field to help the user understand the reason behind things ";
    nl;
    "        and maximize learning. Additionally, offer tips (performance, gotchas, etc.).";
    nl; "        "].

(** The [try] block that asks for the topics.  [None] stands for the early
    [return []]; [Some topic_list] lets the function go on. *)
Definition topics_block (c : client) (model system_prompt topic_prompt : string)
    (topic_number : Z) : M (option (list pyval)) :=
  try_except
    (topics_response <-
       structured_output_completion c model TopicsFormat system_prompt topic_prompt ;;
     if is_None topics_response then ret None
     else if negb (hasattr topics_response "result")
             || negb (match getattr topics_response "result" with
                      | Ok result => truthy result
                      | Exc _ => false
                      end)
     then ret None
     else
       lift (items <- flat_items topics_response ;;
             Ok (Some (slice_upto topic_number items)))%res)%M
    (fun e => raise (GrError "Topic generation failed due to " (Some e))).

(** The [try] block of one iteration of the loop over the topics.  [None]
    stands for [continue] without appending. *)
Definition cards_block (c : client) (model system_prompt card_prompt : string)
    : M (option pyval) :=
  try_except
    (cards <-
       structured_output_completion c model CardListFormat system_prompt card_prompt ;;
     if is_None cards then ret None
     else if negb (hasattr cards "topic") || negb (hasattr cards "cards")
     then ret None
     else ret (Some cards))%M
    (fun _ => ret None).

Fixpoint cards_loop (c : client) (model system_prompt : string)
    (cards_per_topic : Z) (subject preference_prompt : string)
    (topic_list : list pyval) (all_card_lists : list pyval)
    : M (list pyval) :=
  match topic_list with
  | [] => ret all_card_lists
  | topic :: rest =>
      let card_prompt :=
        card_prompt_of cards_per_topic subject preference_prompt topic in
      (r <- cards_block c model system_prompt card_prompt ;;
       cards_loop c model system_prompt cards_per_topic subject
         preference_prompt rest
         (match r with
          | Some cards => all_card_lists ++ [cards]
          | None => all_card_lists
          end))%M
  end.

Definition generate_cards (api_key_input subject : string)
    (topic_number cards_per_topic : Z) (preference_prompt : string)
    : M returned :=
  (gr_Info "Starting process" ;;;
   if String.eqb api_key_input EmptyString
   then ret (ErrorValue (GrError "Error: OpenAI API key is required." None))
   else
     let c := OpenAI api_key_input in
     let model := "gpt-4o-mini" in
     let system_prompt := system_prompt_of subject preference_prompt in
     let topic_prompt := topic_prompt_of topic_number subject in
     topics <- topics_block c model system_prompt topic_prompt topic_number ;;
     match topics with
     | None => ret (Rows [])
     | Some topic_list =>
         all_card_lists <-
           cards_loop c model system_prompt cards_per_topic subject
             preference_prompt topic_list [] ;;
         flattened <-
           lift (flatten_card_lists 1 all_card_lists
                   {| index := None; flattened_data := [] |}) ;;
         ret (Rows flattened)
     end)%M.

End Pipeline.

(** ** [export_csv] *)

(** [gr.File(value=..., visible=...)]. *)
Record gr_File : Type := {
  value : string;
  visible : bool
}.

Definition MIN_ROWS : nat := 2.

Definition export_csv (d : dataframe) : M (option gr_File) :=
  if Nat.ltb (length (data d)) MIN_ROWS
  then
    (gr_Warning (fstring ["The dataframe has fewer than "; str_nat MIN_ROWS;
                          " rows. Nothing to export."]) ;;;
     ret None)%M
  else
    (gr_Info "Exporting..." ;;;
     to_csv d "anki_deck.csv" ;;;
     ret (Some {| value := "anki_deck.csv"; visible := true |}))%M.

(** ** The response schemas *)

(** The pydantic models of the source, and the objects that represent their
    instances among the dynamic values. *)
Record Step : Type := {
  step_explanation : string;
  step_output : string
}.

Record Subtopics : Type := {
  sub_steps : list Step;
  sub_result : list string
}.

Record Topics : Type := {
  topics_result : list Subtopics
}.

Record CardFront : Type := {
  question : option string
}.

Record CardBack : Type := {
  answer : option string;
  explanation : string;
  example : string
}.

Record Card : Type := {
  front : CardFront;
  back : CardBack
}.

Record CardList : Type := {
  topic : string;
  cards : list Card
}.

Definition val_opt (o : option string) : pyval :=
  match o with
  | Some s => VStr s
  | None => VNone
  end.

Definition val_Step (s : Step) : pyval :=
  VObj [("explanation", VStr (step_explanation s));
        ("output", VStr (step_output s))].

Definition val_Subtopics (s : Subtopics) : pyval :=
  VObj [("steps", VList (val_Step <$> sub_steps s));
        ("result", VList (VStr <$> sub_result s))].

Definition val_Topics (t : Topics) : pyval :=
  VObj [("result", VList (val_Subtopics <$> topics_result t))].

Definition val_CardFront (f : CardFront) : pyval :=
  VObj [("question", val_opt (question f))].

Definition val_CardBack (b : CardBack) : pyval :=
  VObj [("answer", val_opt (answer b));
        ("explanation", VStr (explanation b));
        ("example", VStr (example b))].

Definition val_Card (c : Card) : pyval :=
  VObj [("front", val_CardFront (front c)); ("back", val_CardBack (back c))].

Definition val_CardList (cl : CardList) : pyval :=
  VObj [("topic", VStr (topic cl)); ("cards", VList (val_Card <$> cards cl))].

(** A completion with one choice whose message carries [parsed]. *)
Definition completion_of (parsed : pyval) : pyval :=
  VObj [("choices", VList [VObj [("message", VObj [("parsed", parsed)])]])].

(** ** Vocabulary of the specification *)

(** The row of card number [card_position] (counted from 1) of the card
    list number [topic_position] (counted from 1): the index is
    ["<topic_position>.<card_position>"], the card position zero-padded to
    the width of the largest card position of that list. *)
Definition spec_row (topic_position : nat) (cl : CardList)
    (card_position : nat) (c : Card) : row :=
  {| Index := str_nat topic_position +:+ "." +:+
              format_zero_padded card_position
                (String.length (str_nat (length (cards cl))));
     Topic := VStr (topic cl);
     Question := val_opt (question (front c));
     Answer := val_opt (answer (back c));
     Explanation := VStr (explanation (back c));
     Example := VStr (example (back c)) |}.

(** The rows of one card list, then of a sequence of card lists numbered
    from [first]. *)
Definition spec_rows_of (topic_position : nat) (cl : CardList) : list row :=
  imap (fun i c => spec_row topic_position cl (S i) c) (cards cl).

Fixpoint spec_rows_from (first : nat) (cls : list CardList) : list row :=
  match cls with
  | [] => []
  | cl :: rest => spec_rows_of first cl ++ spec_rows_from (S first) rest
  end.

Definition spec_rows (cls : list CardList) : list row := spec_rows_from 1 cls.

(** The topic labels of a topics response, in order. *)
Definition spec_labels (t : Topics) : list string :=
  concat (sub_result <$> topics_result t).

(** An index string belongs to group [k] when it starts with ["k."]. *)
Definition in_group (k : nat) (idx : string) : Prop :=
  exists suffix, idx = str_nat k +:+ "." +:+ suffix.

(** The answers of a client to requests issued one after the other, after
    the requests [history]. *)
Fixpoint answers (c : client) (history reqs : list request)
    : list api_outcome :=
  match reqs with
  | [] => []
  | r :: rest => c history r :: answers c (history ++ [r]) rest
  end.

(** The invoker reports absence for this answer. *)
Definition absent (out : api_outcome) : Prop :=
  match out with
  | Raises _ => True
  | Returns completion => inspect_completion completion = Ok VNone
  end.

(** Card generation failed for a topic: the call raised, the inspection of
    the completion raised, nothing was parsed, or the parsed value lacks one
    of the expected fields. *)
Definition card_failure (out : api_outcome) : Prop :=
  match out with
  | Raises _ => True
  | Returns completion =>
      match inspect_completion completion with
      | Exc _ => True
      | Ok v => v = VNone \/ hasattr v "topic" = false
                \/ hasattr v "cards" = false
      end
  end.

(** Card generation succeeded for a topic with the card list [cl]. *)
Definition card_success (out : api_outcome) (cl : CardList) : Prop :=
  exists completion,
    out = Returns completion /\
    inspect_completion completion = Ok (val_CardList cl).

(** One answer per topic: [Some cl] for a success, [None] for a failure. *)
Definition card_answer (out : api_outcome) (r : option CardList) : Prop :=
  match r with
  | Some cl => card_success out cl
  | None => card_failure out
  end.

(** Topic generation succeeded with the topics [t]. *)
Definition topics_success (out : api_outcome) (t : Topics) : Prop :=
  exists completion,
    out = Returns completion /\
    inspect_completion completion = Ok (val_Topics t).

(** A client that plays a fixed list of answers, one per call. *)
Definition script_client (script : list api_outcome) : client :=
  fun history _ =>
    match script !! length history with
    | Some out => out
    | None => Raises (ClientError "no answer left")
    end.

(** The requests the pipeline issues. *)
Definition topic_request (subject preference_prompt : string)
    (topic_number : Z) : request :=
  {| req_model := "gpt-4o-mini";
     req_system := strip (system_prompt_of subject preference_prompt);
     req_user := strip (topic_prompt_of topic_number subject);
     req_format := TopicsFormat |}.

Definition card_request (py_format : pyval -> string)
    (subject preference_prompt : string) (cards_per_topic : Z)
    (topic : pyval) : request :=
  {| req_model := "gpt-4o-mini";
     req_system := strip (system_prompt_of subject preference_prompt);
     req_user := strip (card_prompt_of py_format cards_per_topic subject
                          preference_prompt topic);
     req_format := CardListFormat |}.

(** ** Reading an index string back *)

Definition digit_value (c : ascii) : N := N_of_ascii c - 48.

(** The number written by the digits of [s], after the digits summed up
    in [acc]. *)
Fixpoint decimal_value (acc : N) (s : string) : N :=
  match s with
  | EmptyString => acc
  | String c s' => decimal_value (10 * acc + digit_value c) s'
  end.

Definition is_dot (c : ascii) : bool := Ascii.eqb c ".".

(** The text before the first dot, and the text after it. *)
Fixpoint before_dot (s : string) : string :=
  match s with
  | EmptyString => EmptyString
  | String c s' => if is_dot c then EmptyString else String c (before_dot s')
  end.

Fixpoint after_dot (s : string) : string :=
  match s with
  | EmptyString => EmptyString
  | String c s' => if is_dot c then s' else after_dot s'
  end.

(** Group number and card number of an index string. *)
Definition parse_index (idx : string) : nat * nat :=
  (N.to_nat (decimal_value 0 (before_dot idx)),
   N.to_nat (decimal_value 0 (after_dot idx))).

(** The order in which the flattening loops reach (group, card) pairs. *)
Definition emitted_before (a b : nat * nat) : Prop :=
  a.1 < b.1 \/ (a.1 = b.1 /\ a.2 < b.2).

(** The rows are numbered in the order of emission, all of them before the
    pair [next]. *)
Definition numbered_upto (next : nat * nat) (rows : list row) : Prop :=
  StronglySorted emitted_before (parse_index <$> (Index <$> rows)) /\
  Forall (fun p => emitted_before p next) (parse_index <$> (Index <$> rows)).

(** What the loop over the topics keeps of an answer. *)
Definition accepted (out : api_outcome) : option pyval :=
  match out with
  | Raises _ => None
  | Returns completion =>
      match inspect_completion completion with
      | Exc _ => None
      | Ok v =>
          if is_None v then None
          else if negb (hasattr v "topic") || negb (hasattr v "cards")
          then None
          else Some v
      end
  end.

(** What the topics phase makes of the answer to the topic request:
    [Ok None] is the early [return []]. *)
Definition topics_of (topic_number : Z) (out : api_outcome)
    : res (option (list pyval)) :=
  match out with
  | Raises _ => Ok None
  | Returns completion =>
      match inspect_completion completion with
      | Exc e =>
          Exc (GrError "Topic generation failed due to "
                 (Some (GrError "Processing error: " (Some e))))
      | Ok v =>
          if is_None v then Ok None
          else if negb (hasattr v "result")
                  || negb (match getattr v "result" with
                           | Ok result => truthy result
                           | Exc _ => false
                           end)
          then Ok None
          else
            match flat_items v with
            | Ok items => Ok (Some (slice_upto topic_number items))
            | Exc e => Exc (GrError "Topic generation failed due to " (Some e))
            end
      end
  end.

(** ** Sample runs *)

Definition mk_card (q a : string) : Card :=
  {| front := {| question := Some q |};
     back := {| answer := Some a; explanation := "because"; example := "e.g." |} |}.

Definition three_cards : CardList :=
  {| topic := "Joins";
     cards := [mk_card "q1" "a1"; mk_card "q2" "a2"; mk_card "q3" "a3"] |}.

Definition ten_cards : CardList :=
  {| topic := "Indexes";
     cards := replicate 10 (mk_card "q" "a") |}.

Definition one_card : CardList :=
  {| topic := "Views"; cards := [mk_card "q" "a"] |}.

(** Five subtopic groups of one label each. *)
Definition five_groups : Topics :=
  {| topics_result :=
       (fun l => {| sub_steps := []; sub_result := [l] |})
         <$> ["Select"; "Joins"; "Indexes"; "Views"; "Triggers"] |}.

(** Two groups, of two labels and of one label. *)
Definition two_groups : Topics :=
  {| topics_result :=
       [ {| sub_steps := []; sub_result := ["Select"; "Joins"] |};
         {| sub_steps := []; sub_result := ["Indexes"] |} ] |}.

(** A string is substituted as it is; the sample runs substitute strings
    only. *)
Definition format_label (v : pyval) : string :=
  match v with
  | VStr s => s
  | _ => "?"
  end.

(** Topic 2 of 3 fails: the call for its cards raises. *)
Definition second_fails : client :=
  script_client
    [ Returns (completion_of (val_Topics two_groups));
      Returns (completion_of (val_CardList three_cards));
      Raises (ClientError "timeout");
      Returns (completion_of (val_CardList ten_cards)) ].

(** Every topic is answered, with another number of cards than asked for. *)
Definition all_answered : client :=
  script_client
    [ Returns (completion_of (val_Topics two_groups));
      Returns (completion_of (val_CardList three_cards));
      Returns (completion_of (val_CardList one_card));
      Returns (completion_of (val_CardList ten_cards)) ].

(** Every topic is answered with three cards. *)
Definition three_each : client :=
  script_client
    [ Returns (completion_of (val_Topics two_groups));
      Returns (completion_of (val_CardList three_cards));
      Returns (completion_of (val_CardList three_cards));
      Returns (completion_of (val_CardList three_cards)) ].

(** A completion whose [choices] is an object: truthy, not subscriptable. *)
Definition odd_completion : pyval :=
  VObj [("choices", VObj [])].

(** ** Vocabulary of the further properties *)




(** The row the flattening loop builds for a well-formed card, given the
    padding width and the topic label in force. *)
Definition card_row (card_list_index width : nat) (topic_label : pyval)
    (card_index : nat) (c : Card) : row :=
  {| Index := str_nat card_list_index +:+ "." +:+
              format_zero_padded card_index width;
     Topic := topic_label;
     Question := val_opt (question (front c));
     Answer := val_opt (answer (back c));
     Explanation := VStr (explanation (back c));
     Example := VStr (example (back c)) |}.

(** Decimal digits. *)
Definition is_digit (c : ascii) : bool :=
  (48 <=? N_of_ascii c)%N && (N_of_ascii c <=? 57)%N.

Fixpoint all_digits (s : string) : bool :=
  match s with
  | EmptyString => true
  | String c s' => is_digit c && all_digits s'
  end.

(** The index of a row names a group between [lo] and [hi] and a card
    position from 1 on. *)
Definition index_within (lo hi : nat) (r : row) : Prop :=
  exists k i width,
    lo <= k <= hi /\ 1 <= i /\
    Index r = str_nat k +:+ "." +:+ format_zero_padded i width.

(** A card list without cards. *)
Definition no_cards : CardList := {| topic := "Empty"; cards := [] |}.

(** * Properties *)

(** ** Strings and decimal renderings *)

Lemma string_app_cons c (a b : string) :
  String c a +:+ b = String c (a +:+ b).
Proof. reflexivity. Qed.

Lemma string_app_assoc (a b c : string) :
  (a +:+ b) +:+ c = a +:+ (b +:+ c).
Proof.
  induction a as [|x a IH]; [reflexivity|].
  rewrite !string_app_cons. by rewrite IH.
Qed.

Lemma string_length_app (a b : string) :
  String.length (a +:+ b) = String.length a + String.length b.
Proof.
  induction a as [|x a IH]; [reflexivity|].
  rewrite string_app_cons. simpl. by rewrite IH.
Qed.

Lemma zeros_length n : String.length (zeros n) = n.
Proof. induction n as [|n IH]; simpl; [done|by rewrite IH]. Qed.

Lemma pretty_N_go_app x s :
  pretty_N_go x s = pretty_N_go x EmptyString +:+ s.
Proof.
  revert s. induction (N.lt_wf_0 x) as [x _ IH]; intros s.
  destruct (decide (x = 0)%N) as [->|Hx].
  { by rewrite !pretty_N_go_0. }
  rewrite !(pretty_N_go_step x) by lia.
  assert (x `div` 10 < x)%N as Hlt by (apply N.div_lt; lia).
  rewrite (IH _ Hlt (String _ s)), (IH _ Hlt (String _ EmptyString)).
  by rewrite string_app_assoc.
Qed.

Lemma digit_value_char d : (d < 10)%N -> digit_value (pretty_N_char d) = d.
Proof.
  intros Hd.
  assert (d = 0 \/ d = 1 \/ d = 2 \/ d = 3 \/ d = 4 \/ d = 5 \/ d = 6
          \/ d = 7 \/ d = 8 \/ d = 9)%N as H by lia.
  repeat (destruct H as [->|H]; [reflexivity|]). by subst.
Qed.

Lemma is_dot_char d : is_dot (pretty_N_char d) = false.
Proof. unfold pretty_N_char. by repeat case_match. Qed.

Lemma decimal_value_app acc (a b : string) :
  decimal_value acc (a +:+ b) = decimal_value (decimal_value acc a) b.
Proof.
  revert acc. induction a as [|x a IH]; intros acc; [reflexivity|].
  rewrite string_app_cons. simpl. by rewrite IH.
Qed.

Lemma decimal_value_pretty_go x :
  decimal_value 0 (pretty_N_go x EmptyString) = x.
Proof.
  induction (N.lt_wf_0 x) as [x _ IH].
  destruct (decide (x = 0)%N) as [->|Hx]; [by rewrite pretty_N_go_0|].
  rewrite pretty_N_go_step, pretty_N_go_app, decimal_value_app by lia.
  rewrite IH by (apply N.div_lt; lia). simpl.
  rewrite digit_value_char by (apply N.mod_lt; lia).
  symmetry. apply N.div_mod. lia.
Qed.

Lemma decimal_value_str_nat n :
  decimal_value 0 (str_nat n) = N.of_nat n.
Proof.
  unfold str_nat, pretty, pretty_nat, pretty, pretty_N.
  case_decide as H; [by rewrite H|]. apply decimal_value_pretty_go.
Qed.

Lemma decimal_value_zeros n s :
  decimal_value 0 (zeros n +:+ s) = decimal_value 0 s.
Proof.
  induction n as [|n IH]; [reflexivity|].
  change (zeros (S n)) with (String "0" (zeros n)).
  rewrite string_app_cons. simpl. apply IH.
Qed.

Lemma decimal_value_padded n width :
  decimal_value 0 (format_zero_padded n width) = N.of_nat n.
Proof.
  unfold format_zero_padded.
  by rewrite decimal_value_zeros, decimal_value_str_nat.
Qed.

Lemma before_dot_pretty_go x s :
  before_dot s = s -> before_dot (pretty_N_go x s) = pretty_N_go x s.
Proof.
  revert s. induction (N.lt_wf_0 x) as [x _ IH]; intros s Hs.
  destruct (decide (x = 0)%N) as [->|Hx]; [by rewrite pretty_N_go_0|].
  rewrite pretty_N_go_step by lia.
  apply IH; [apply N.div_lt; lia|].
  simpl. by rewrite is_dot_char, Hs.
Qed.

Lemma before_dot_str_nat n : before_dot (str_nat n) = str_nat n.
Proof.
  unfold str_nat, pretty, pretty_nat, pretty, pretty_N.
  case_decide; [reflexivity|]. by apply before_dot_pretty_go.
Qed.

Lemma before_dot_app (a b : string) :
  before_dot a = a -> before_dot (a +:+ "." +:+ b) = a.
Proof.
  induction a as [|x a IH]; [reflexivity|].
  rewrite string_app_cons. simpl.
  destruct (is_dot x); [discriminate|].
  intros [= H]. by rewrite IH.
Qed.

Lemma after_dot_app (a b : string) :
  before_dot a = a -> after_dot (a +:+ "." +:+ b) = b.
Proof.
  induction a as [|x a IH]; [reflexivity|].
  rewrite string_app_cons. simpl.
  destruct (is_dot x); [discriminate|].
  intros [= H]. by rewrite IH.
Qed.

(** An index string determines the group and the card numbers it was
    formatted from. *)
Lemma parse_index_format k i width :
  parse_index (str_nat k +:+ "." +:+ format_zero_padded i width) = (k, i).
Proof.
  unfold parse_index.
  rewrite before_dot_app, after_dot_app by apply before_dot_str_nat.
  rewrite decimal_value_str_nat, decimal_value_padded.
  by rewrite !Nat2N.id.
Qed.

Lemma parse_index_group k suffix :
  fst (parse_index (str_nat k +:+ "." +:+ suffix)) = k.
Proof.
  unfold parse_index. simpl.
  rewrite before_dot_app by apply before_dot_str_nat.
  by rewrite decimal_value_str_nat, Nat2N.id.
Qed.

Lemma pretty_N_go_length_ge x s :
  String.length s <= String.length (pretty_N_go x s).
Proof.
  revert s. induction (N.lt_wf_0 x) as [x _ IH]; intros s.
  destruct (decide (x = 0)%N) as [->|Hx]; [by rewrite pretty_N_go_0|].
  rewrite pretty_N_go_step by lia.
  etrans; [|apply IH, N.div_lt; lia]. simpl. lia.
Qed.

Lemma pretty_N_go_length_mono x y s s' :
  (x <= y)%N -> String.length s <= String.length s' ->
  String.length (pretty_N_go x s) <= String.length (pretty_N_go y s').
Proof.
  revert y s s'. induction (N.lt_wf_0 x) as [x _ IH]; intros y s s' Hxy Hs.
  destruct (decide (x = 0)%N) as [->|Hx].
  { rewrite pretty_N_go_0. etrans; [exact Hs|apply pretty_N_go_length_ge]. }
  rewrite (pretty_N_go_step x), (pretty_N_go_step y) by lia.
  apply IH.
  - apply N.div_lt; lia.
  - apply N.Div0.div_le_mono; lia.
  - simpl. lia.
Qed.

Lemma str_nat_length_pos n : 1 <= String.length (str_nat n).
Proof.
  unfold str_nat, pretty, pretty_nat, pretty, pretty_N.
  case_decide as H; [simpl; lia|].
  rewrite pretty_N_go_step by lia.
  etrans; [|apply pretty_N_go_length_ge]. simpl. lia.
Qed.

(** The decimal rendering does not get shorter as the number grows. *)
Lemma str_nat_length_mono i n :
  i <= n -> String.length (str_nat i) <= String.length (str_nat n).
Proof.
  intros Hin. destruct i as [|i].
  { apply (str_nat_length_pos n). }
  unfold str_nat, pretty, pretty_nat, pretty, pretty_N.
  case_decide as Hi; [lia|].
  case_decide as Hn; [lia|].
  apply pretty_N_go_length_mono; lia.
Qed.

Lemma format_zero_padded_length i n :
  i <= n ->
  String.length (format_zero_padded i (String.length (str_nat n)))
  = String.length (str_nat n).
Proof.
  intros Hin. apply str_nat_length_mono in Hin.
  unfold format_zero_padded. rewrite string_length_app, zeros_length. lia.
Qed.

(** ** The flattening loops on well-formed card lists *)

Lemma flatten_card_typed k (cl : CardList) i (c : Card) st :
  flatten_card k (String.length (str_nat (length (cards cl))))
    (VStr (topic cl)) i (val_Card c) st
  = (Ok tt, {| index := Some (Index (spec_row k cl i c));
               flattened_data := flattened_data st ++ [spec_row k cl i c] |}).
Proof. reflexivity. Qed.

Lemma flatten_cards_typed k (cl : CardList) (cs : list Card) i st :
  exists idx,
    flatten_cards k (String.length (str_nat (length (cards cl))))
      (VStr (topic cl)) i (val_Card <$> cs) st
    = (Ok tt, {| index := idx;
                 flattened_data :=
                   flattened_data st
                   ++ imap (fun j c => spec_row k cl (i + j) c) cs |}).
Proof.
  revert i st. induction cs as [|c cs IH]; intros i st.
  - exists (index st). simpl. rewrite app_nil_r. by destruct st.
  - rewrite fmap_cons. cbn [flatten_cards]. rewrite flatten_card_typed.
    destruct (IH (S i)
      {| index := Some (Index (spec_row k cl i c));
         flattened_data := flattened_data st ++ [spec_row k cl i c] |})
      as [idx ->].
    exists idx. f_equal. f_equal. cbn [flattened_data].
    rewrite imap_cons, <- app_assoc. simpl. rewrite Nat.add_0_r.
    do 2 f_equal. apply imap_ext. intros j c' _. simpl.
    by rewrite Nat.add_succ_r.
Qed.

Lemma flatten_card_list_typed k (cl : CardList) st :
  exists idx,
    flatten_card_list k (val_CardList cl) st
    = (Ok tt, {| index := idx;
                 flattened_data := flattened_data st ++ spec_rows_of k cl |}).
Proof.
  unfold flatten_card_list. cbn -[flatten_cards str_nat].
  rewrite length_fmap. apply (flatten_cards_typed k cl (cards cl) 1 st).
Qed.

(** On well-formed card lists the loops never raise and produce the rows of
    the specification. *)
Lemma flatten_card_lists_typed k (cls : list CardList) st :
  flatten_card_lists k (val_CardList <$> cls) st
  = Ok (flattened_data st ++ spec_rows_from k cls).
Proof.
  revert k st. induction cls as [|cl cls IH]; intros k st.
  - simpl. by rewrite app_nil_r.
  - rewrite fmap_cons. cbn [flatten_card_lists].
    destruct (flatten_card_list_typed k cl st) as [idx ->].
    rewrite IH. cbn [flattened_data spec_rows_from]. by rewrite app_assoc.
Qed.

Lemma spec_rows_of_length k cl : length (spec_rows_of k cl) = length (cards cl).
Proof. unfold spec_rows_of. apply length_imap. Qed.

Lemma spec_rows_from_length k cls :
  length (spec_rows_from k cls) = sum_list (length ∘ cards <$> cls).
Proof.
  revert k. induction cls as [|cl cls IH]; intros k; [done|].
  simpl. by rewrite length_app, spec_rows_of_length, IH.
Qed.

Lemma spec_rows_from_app k cls1 cls2 :
  spec_rows_from k (cls1 ++ cls2)
  = spec_rows_from k cls1 ++ spec_rows_from (length cls1 + k) cls2.
Proof.
  revert k. induction cls1 as [|cl cls1 IH]; intros k; [done|].
  simpl. rewrite IH, <- app_assoc. do 3 f_equal. lia.
Qed.

(** The rows of the card list at position [j] (counted from 0) are there,
    numbered [first + j]. *)
Lemma spec_rows_from_lookup first cls j cl :
  cls !! j = Some cl ->
  exists before after,
    spec_rows_from first cls = before ++ spec_rows_of (first + j) cl ++ after.
Proof.
  intros Hj. apply list_elem_of_split_length in Hj as (l1 & l2 & -> & ->).
  rewrite spec_rows_from_app. simpl.
  eexists _, _. do 2 f_equal. f_equal. lia.
Qed.

(** ** The flattening loops on arbitrary values *)

Lemma emitted_before_trans a b c :
  emitted_before a b -> emitted_before b c -> emitted_before a c.
Proof. unfold emitted_before. lia. Qed.

Lemma numbered_upto_nil next : numbered_upto next [].
Proof. split; constructor. Qed.

Lemma numbered_upto_weaken a b rows :
  emitted_before a b -> numbered_upto a rows -> numbered_upto b rows.
Proof.
  intros Hab [Hs Hall]. split; [done|].
  eapply Forall_impl; [exact Hall|]. intros p Hp. simpl in Hp.
  exact (emitted_before_trans _ _ _ Hp Hab).
Qed.

Lemma numbered_upto_snoc k i width rows r :
  Index r = str_nat k +:+ "." +:+ format_zero_padded i width ->
  numbered_upto (k, i) rows -> numbered_upto (k, S i) (rows ++ [r]).
Proof.
  intros Hr [Hs Hall]. rewrite Forall_forall in Hall.
  unfold numbered_upto. rewrite !fmap_app. simpl.
  rewrite Hr, parse_index_format. split.
  - apply StronglySorted_app_2; [|done|by repeat constructor].
    intros p q Hp Hq. apply list_elem_of_singleton in Hq as ->. by apply Hall.
  - apply Forall_app. split.
    + apply Forall_forall. intros p Hp.
      eapply emitted_before_trans; [by apply Hall|].
      unfold emitted_before. simpl. lia.
    + apply Forall_singleton. unfold emitted_before. simpl. lia.
Qed.

Lemma flatten_card_numbered k width topic i card st r st' :
  flatten_card k width topic i card st = (r, st') ->
  numbered_upto (k, i) (flattened_data st) ->
  numbered_upto (k, S i) (flattened_data st') /\ index st' <> None.
Proof.
  unfold flatten_card. intros Hrun Hinv.
  destruct (_ <- getattr card "front" ;; _)%res as [newrow|e] eqn:Hrow;
    injection Hrun as <- <-; simpl; (split; [|done]).
  - eapply numbered_upto_snoc; [|done].
    unfold res_bind in Hrow. repeat case_match; simplify_eq. reflexivity.
  - eapply numbered_upto_weaken; [|done]. unfold emitted_before. simpl. lia.
Qed.

Lemma flatten_cards_numbered k width topic cards i st r st' :
  flatten_cards k width topic i cards st = (r, st') ->
  numbered_upto (k, i) (flattened_data st) ->
  (exists i', numbered_upto (k, i') (flattened_data st')) /\
  (index st <> None -> index st' <> None) /\
  (r <> Ok tt -> index st' <> None).
Proof.
  revert i st. induction cards as [|card cards IH]; intros i st Hrun Hinv.
  - injection Hrun as <- <-. split; [eauto|]. split; [done|]. by intros [].
  - cbn [flatten_cards] in Hrun.
    destruct (flatten_card k width topic i card st) as [[[]|e] st1] eqn:Hcard;
      destruct (flatten_card_numbered _ _ _ _ _ _ _ _ Hcard Hinv) as [H1 H2].
    + destruct (IH _ _ Hrun H1) as (Hex & Hkeep & Hexc).
      split; [done|]. split; [|done]. intros _. by apply Hkeep.
    + injection Hrun as <- <-. split; [eauto|]. by split.
Qed.

Lemma flatten_card_list_numbered k card_list st r st' :
  flatten_card_list k card_list st = (r, st') ->
  numbered_upto (k, 1) (flattened_data st) ->
  numbered_upto (S k, 1) (flattened_data st') /\
  (index st <> None -> index st' <> None) /\
  (r <> Ok tt -> index st' = None -> flattened_data st' = flattened_data st).
Proof.
  unfold flatten_card_list. intros Hrun Hinv.
  destruct (_ <- getattr card_list "topic" ;; _)%res
    as [[[topic total] items]|e]; last first.
  { injection Hrun as <- <-. split; [|done].
    eapply numbered_upto_weaken; [|done]. unfold emitted_before. simpl. lia. }
  destruct (flatten_cards_numbered _ _ _ _ _ _ _ _ Hrun Hinv)
    as ([i' Hi'] & Hkeep & Hexc).
  split; [|split; [done|]].
  - eapply numbered_upto_weaken; [|done]. unfold emitted_before. simpl. lia.
  - intros Hr Hnone. by destruct (Hexc Hr).
Qed.

(** Whatever the accumulated values are, the rows that come out are
    numbered in the order of emission. *)
Lemma flatten_card_lists_numbered k all_card_lists st rows :
  flatten_card_lists k all_card_lists st = Ok rows ->
  numbered_upto (k, 1) (flattened_data st) ->
  exists k', numbered_upto (k', 1) rows.
Proof.
  revert k st. induction all_card_lists as [|card_list rest IH];
    intros k st Hrun Hinv.
  - injection Hrun as <-. eauto.
  - cbn [flatten_card_lists] in Hrun.
    destruct (flatten_card_list k card_list st) as [[[]|e] st1] eqn:Hlist;
      destruct (flatten_card_list_numbered _ _ _ _ _ Hlist Hinv)
        as (H1 & _ & _).
    + eauto.
    + destruct (index st1); [eauto|discriminate].
Qed.

(** Two corners of the source, as the embedding has them: a negative bound
    of the slice counts from the end, and the handler of the flattening
    loop reads [index] before any card was formatted. *)
Example slice_upto_negative :
  slice_upto (-1) [VStr "a"; VStr "b"; VStr "c"] = [VStr "a"; VStr "b"].
Proof. reflexivity. Qed.

Example flatten_before_first_index :
  flatten_card_lists 1 [VObj [("topic", VStr "Joins"); ("cards", VNone)]]
    {| index := None; flattened_data := [] |}
  = Exc (UnboundLocalError "index").
Proof. reflexivity. Qed.

(** ** Running the invoker and the two request phases *)

Lemma structured_output_completion_run c model fmt sp up w :
  structured_output_completion c model fmt sp up w
  = (match c (calls w) {| req_model := model; req_system := strip sp;
                          req_user := strip up; req_format := fmt |} with
     | Raises _ => Ok VNone
     | Returns completion =>
         match inspect_completion completion with
         | Ok parsed => Ok parsed
         | Exc e => Exc (GrError "Processing error: " (Some e))
         end
     end,
     record_call {| req_model := model; req_system := strip sp;
                    req_user := strip up; req_format := fmt |} w).
Proof.
  unfold structured_output_completion, bind, parse.
  destruct (c _ _) as [e|completion]; [reflexivity|].
  by destruct (inspect_completion completion).
Qed.

Lemma cards_block_run c model sp cp w :
  cards_block c model sp cp w
  = (Ok (accepted (c (calls w)
                     {| req_model := model; req_system := strip sp;
                        req_user := strip cp; req_format := CardListFormat |})),
     record_call {| req_model := model; req_system := strip sp;
                    req_user := strip cp; req_format := CardListFormat |} w).
Proof.
  unfold cards_block, try_except, bind.
  rewrite structured_output_completion_run. unfold accepted.
  destruct (c _ _) as [e|completion]; [reflexivity|].
  destruct (inspect_completion completion) as [v|e]; [|reflexivity].
  destruct (is_None v); [reflexivity|].
  by destruct (negb (hasattr v "topic") || negb (hasattr v "cards")).
Qed.

Lemma record_calls_cons r reqs w :
  record_calls reqs (record_call r w) = record_calls (r :: reqs) w.
Proof.
  unfold record_calls, record_call. simpl. by rewrite <- app_assoc.
Qed.

Lemma record_calls_nil w : record_calls [] w = w.
Proof. unfold record_calls. rewrite app_nil_r. by destruct w. Qed.

(** The loop over the topics issues one request per topic, never raises,
    and keeps the accepted answers in order. *)
Lemma cards_loop_run py_format c subject pref cpt topic_list acc w :
  cards_loop py_format c "gpt-4o-mini" (system_prompt_of subject pref) cpt
    subject pref topic_list acc w
  = (Ok (acc ++ omap accepted
                  (answers c (calls w)
                     (card_request py_format subject pref cpt <$> topic_list))),
     record_calls (card_request py_format subject pref cpt <$> topic_list) w).
Proof.
  revert acc w. induction topic_list as [|t rest IH]; intros acc w.
  - simpl. unfold ret. by rewrite app_nil_r, record_calls_nil.
  - cbn [cards_loop]. unfold bind at 1. rewrite cards_block_run.
    rewrite IH, fmap_cons, record_calls_cons.
    unfold card_request. cbn [answers omap list_omap calls record_call].
    destruct (accepted _) as [v|]; [|reflexivity].
    by rewrite <- app_assoc.
Qed.

Lemma accepted_failure out : card_failure out -> accepted out = None.
Proof.
  unfold card_failure, accepted. destruct out as [e|completion]; [done|].
  destruct (inspect_completion completion) as [v|e]; [|done].
  intros [->|[H|H]]; [done|..]; rewrite H; destruct (is_None v); [done| |done|];
    by rewrite ?orb_true_r.
Qed.

Lemma accepted_success out cl :
  card_success out cl -> accepted out = Some (val_CardList cl).
Proof. intros (completion & -> & H). unfold accepted. by rewrite H. Qed.

Lemma accepted_answers outs rs :
  Forall2 card_answer outs rs ->
  omap accepted outs = val_CardList <$> omap id rs.
Proof.
  induction 1 as [|out r outs rs Hhead _ IH]; [done|].
  cbn [omap list_omap]. destruct r as [cl|]; simpl in Hhead.
  - rewrite (accepted_success _ _ Hhead). simpl. f_equal. exact IH.
  - rewrite (accepted_failure _ Hhead). exact IH.
Qed.

Lemma res_mapM_subtopics (ss : list Subtopics) :
  res_mapM (fun subtopic => r <- getattr subtopic "result" ;; py_iter r)%res
    (val_Subtopics <$> ss)
  = Ok ((fun s => VStr <$> sub_result s) <$> ss).
Proof.
  induction ss as [|s ss IH]; [done|].
  rewrite fmap_cons. cbn [res_mapM]. rewrite IH. reflexivity.
Qed.

Lemma concat_labels (ss : list Subtopics) :
  concat ((fun s => VStr <$> sub_result s) <$> ss)
  = VStr <$> concat (sub_result <$> ss).
Proof.
  induction ss as [|s ss IH]; [done|].
  rewrite !fmap_cons. cbn [concat]. by rewrite fmap_app, IH.
Qed.

Lemma flat_items_typed (t : Topics) :
  flat_items (val_Topics t) = Ok (VStr <$> spec_labels t).
Proof.
  unfold flat_items, val_Topics, spec_labels. cbn -[res_mapM concat].
  rewrite res_mapM_subtopics. cbn -[concat]. by rewrite concat_labels.
Qed.

(** The topics phase on a well-formed topics response. *)
Lemma topics_block_typed c model sp tp topic_number w t :
  topics_success (c (calls w) {| req_model := model; req_system := strip sp;
                                 req_user := strip tp;
                                 req_format := TopicsFormat |}) t ->
  topics_block c model sp tp topic_number w
  = (Ok (match topics_result t with
         | [] => None
         | _ => Some (slice_upto topic_number (VStr <$> spec_labels t))
         end),
     record_call {| req_model := model; req_system := strip sp;
                    req_user := strip tp; req_format := TopicsFormat |} w).
Proof.
  intros (completion & Hout & Hparsed).
  unfold topics_block, try_except, bind.
  rewrite structured_output_completion_run, Hout, Hparsed.
  destruct (topics_result t) as [|s ss] eqn:Hres.
  { destruct t as [ss]. simpl in Hres. by subst ss. }
  rewrite flat_items_typed.
  destruct t as [ss']. simpl in Hres. subst ss'. reflexivity.
Qed.

Lemma slice_upto_nil {A} n : slice_upto n (@nil A) = [].
Proof. unfold slice_upto. case_match; by rewrite take_nil. Qed.

Lemma topics_block_run c model sp tp topic_number w :
  topics_block c model sp tp topic_number w
  = (topics_of topic_number
       (c (calls w) {| req_model := model; req_system := strip sp;
                       req_user := strip tp; req_format := TopicsFormat |}),
     record_call {| req_model := model; req_system := strip sp;
                    req_user := strip tp; req_format := TopicsFormat |} w).
Proof.
  unfold topics_block, try_except, bind.
  rewrite structured_output_completion_run. unfold topics_of.
  destruct (c _ _) as [e|completion]; [reflexivity|].
  destruct (inspect_completion completion) as [v|e]; [|reflexivity].
  destruct (is_None v); [reflexivity|].
  destruct (negb (hasattr v "result") || _); [reflexivity|].
  unfold lift. by destruct (flat_items v).
Qed.

Section PipelineRuns.

Variable OpenAI : string -> client.
Variable py_format : pyval -> string.

Lemma generate_cards_without_key subject topic_number cards_per_topic pref w :
  generate_cards OpenAI py_format EmptyString subject topic_number
    cards_per_topic pref w
  = (Ok (ErrorValue (GrError "Error: OpenAI API key is required." None)),
     show (Info "Starting process") w).
Proof. reflexivity. Qed.

(** The whole function, for a non-empty credential, in terms of the answers
    of the client. *)
Lemma generate_cards_run key subject topic_number cards_per_topic pref w :
  key <> EmptyString ->
  generate_cards OpenAI py_format key subject topic_number cards_per_topic
    pref w
  = match topics_of topic_number
            (OpenAI key (calls w) (topic_request subject pref topic_number))
    with
    | Exc e =>
        (Exc e, record_call (topic_request subject pref topic_number)
                  (show (Info "Starting process") w))
    | Ok None =>
        (Ok (Rows []), record_call (topic_request subject pref topic_number)
                         (show (Info "Starting process") w))
    | Ok (Some topic_list) =>
        (match flatten_card_lists 1
                 (omap accepted
                    (answers (OpenAI key)
                       (calls w ++ [topic_request subject pref topic_number])
                       (card_request py_format subject pref cards_per_topic
                          <$> topic_list)))
                 {| index := None; flattened_data := [] |}
         with
         | Ok rows => Ok (Rows rows)
         | Exc e => Exc e
         end,
         record_calls
           (topic_request subject pref topic_number
            :: (card_request py_format subject pref cards_per_topic
                  <$> topic_list))
           (show (Info "Starting process") w))
    end.
Proof.
  intros Hkey. unfold generate_cards, bind at 1, gr_Info.
  apply String.eqb_neq in Hkey. rewrite Hkey.
  unfold bind at 1. rewrite topics_block_run.
  fold (topic_request subject pref topic_number).
  cbn [calls show].
  destruct (topics_of _ _) as [[topic_list|]|e]; [|reflexivity..].
  unfold bind at 1. rewrite cards_loop_run, record_calls_cons.
  cbn [calls record_call show]. rewrite app_nil_l.
  unfold bind, lift, ret. by destruct (flatten_card_lists _ _ _).
Qed.

(** A run in which the topics are generated and every topic is answered by
    a well-formed card list or by a failure. *)
Lemma generate_cards_typed key subject topic_number cards_per_topic pref w t rs :
  key <> EmptyString ->
  topics_success
    (OpenAI key (calls w) (topic_request subject pref topic_number)) t ->
  Forall2 card_answer
    (answers (OpenAI key)
       (calls w ++ [topic_request subject pref topic_number])
       (card_request py_format subject pref cards_per_topic
          <$> slice_upto topic_number (VStr <$> spec_labels t)))
    rs ->
  generate_cards OpenAI py_format key subject topic_number cards_per_topic
    pref w
  = (Ok (Rows (spec_rows (omap id rs))),
     record_calls
       (topic_request subject pref topic_number
        :: (card_request py_format subject pref cards_per_topic
              <$> slice_upto topic_number (VStr <$> spec_labels t)))
       (show (Info "Starting process") w)).
Proof.
  intros Hkey Htopics Hcards.
  unfold generate_cards, bind at 1, gr_Info.
  apply String.eqb_neq in Hkey. rewrite Hkey.
  unfold bind at 1.
  rewrite (topics_block_typed _ _ _ _ _ _ t) by exact Htopics.
  fold (topic_request subject pref topic_number).
  destruct (topics_result t) as [|s ss] eqn:Hres.
  { assert (spec_labels t = []) as Hl by (unfold spec_labels; by rewrite Hres).
    rewrite Hl in *. rewrite fmap_nil, slice_upto_nil in *.
    apply Forall2_nil_inv_l in Hcards as ->.
    unfold ret. by rewrite <- record_calls_cons, record_calls_nil. }
  unfold bind at 1. rewrite cards_loop_run.
  rewrite record_calls_cons. cbn [calls record_call show].
  rewrite (accepted_answers _ _ Hcards).
  unfold bind, lift, ret. rewrite app_nil_l, flatten_card_lists_typed.
  reflexivity.
Qed.

End PipelineRuns.

(** * The claims *)

(** ** The missing credential *)

(** C1, on the code: called with an empty credential, [generate_cards]
    issues no API call, but it does not raise either: after the starting
    notification it returns the [gr.Error] object as an ordinary value. *)
Theorem generate_cards_empty_credential
    (OpenAI : string -> client) (py_format : pyval -> string)
    (subject : string) (topic_number cards_per_topic : Z)
    (preference_prompt : string) (w : world) :
  generate_cards OpenAI py_format EmptyString subject topic_number
    cards_per_topic preference_prompt w
  = (Ok (ErrorValue (GrError "Error: OpenAI API key is required." None)),
     show (Info "Starting process") w)
  /\ calls (show (Info "Starting process") w) = calls w.
Proof. split; [apply generate_cards_without_key|reflexivity]. Qed.

(** ** The invoker *)

(** C2: the invoker returns [None] without raising when the API call
    raises, when the completion has no (or an empty) [choices], when the
    first choice has no [message], and when the message has no [parsed];
    when the inspection of the completion itself raises, the invoker raises
    [gr.Error] instead. *)
Theorem invoker_failure_modes
    (c : client) (model : string) (fmt : shape) (sp up : string) (w : world) :
  let req := {| req_model := model; req_system := strip sp;
                req_user := strip up; req_format := fmt |} in
  let result := fst (structured_output_completion c model fmt sp up w) in
  (forall e, c (calls w) req = Raises e -> result = Ok VNone) /\
  (forall completion,
     c (calls w) req = Returns completion ->
     hasattr completion "choices" = false -> result = Ok VNone) /\
  (forall completion choices,
     c (calls w) req = Returns completion ->
     getattr completion "choices" = Ok choices ->
     truthy choices = false -> result = Ok VNone) /\
  (forall completion choices first_choice,
     c (calls w) req = Returns completion ->
     getattr completion "choices" = Ok choices ->
     getitem0 choices = Ok first_choice ->
     hasattr first_choice "message" = false -> result = Ok VNone) /\
  (forall completion choices first_choice message,
     c (calls w) req = Returns completion ->
     getattr completion "choices" = Ok choices ->
     getitem0 choices = Ok first_choice ->
     getattr first_choice "message" = Ok message ->
     hasattr message "parsed" = false -> result = Ok VNone) /\
  (forall completion e,
     c (calls w) req = Returns completion ->
     inspect_completion completion = Exc e ->
     result = Exc (GrError "Processing error: " (Some e))).
Proof.
  intros req result. subst result.
  rewrite structured_output_completion_run. fold req. cbn [fst].
  split_and!.
  - by intros e ->.
  - intros completion -> H. unfold inspect_completion. by rewrite H.
  - intros completion choices -> Hc Ht. unfold inspect_completion.
    rewrite Hc, Ht. by rewrite orb_true_r.
  - intros completion choices first_choice -> Hc Hf Hm.
    unfold inspect_completion. rewrite Hc. unfold hasattr at 1. rewrite Hc.
    destruct (truthy choices); [|reflexivity].
    cbn [negb orb res_bind]. rewrite Hf. cbn [res_bind]. by rewrite Hm.
  - intros completion choices first_choice message -> Hc Hf Hm Hp.
    unfold inspect_completion. rewrite Hc. unfold hasattr at 1. rewrite Hc.
    destruct (truthy choices); [|reflexivity].
    cbn [negb orb res_bind]. rewrite Hf. cbn [res_bind].
    unfold hasattr at 1. rewrite Hm. cbn [negb res_bind]. by rewrite Hp.
  - by intros completion e -> ->.
Qed.

(** Every failure mode of C2 on a concrete answer. *)
Lemma invoker_failure_modes_witness :
  let run out :=
    fst (structured_output_completion (script_client [out]) "gpt-4o-mini"
           CardListFormat "system" "user" initial_world) in
  run (Raises (ClientError "timeout")) = Ok VNone /\
  run (Returns (VObj [])) = Ok VNone /\
  run (Returns (VObj [("choices", VList [])])) = Ok VNone /\
  run (Returns (VObj [("choices", VList [VObj []])])) = Ok VNone /\
  run (Returns (VObj [("choices", VList [VObj [("message", VNone)]])]))
    = Ok VNone /\
  run (Returns odd_completion)
    = Exc (GrError "Processing error: "
             (Some (TypeError "object is not subscriptable"))).
Proof.
  intros run. subst run. cbv beta.
  split_and!.
  - eapply (proj1 (invoker_failure_modes (script_client [_]) _ _ _ _ _));
      reflexivity.
  - eapply (proj1 (proj2
      (invoker_failure_modes (script_client [_]) _ _ _ _ _)));
      reflexivity.
  - eapply (proj1 (proj2 (proj2
      (invoker_failure_modes (script_client [_]) _ _ _ _ _))));
      reflexivity.
  - eapply (proj1 (proj2 (proj2 (proj2
      (invoker_failure_modes (script_client [_]) _ _ _ _ _)))));
      reflexivity.
  - eapply (proj1 (proj2 (proj2 (proj2 (proj2
      (invoker_failure_modes (script_client [_]) _ _ _ _ _))))));
      reflexivity.
  - eapply (proj2 (proj2 (proj2 (proj2 (proj2
      (invoker_failure_modes (script_client [_]) _ _ _ _ _))))));
      reflexivity.
Defined.

(** ** The export step *)

(** C6: below two data rows the export step shows a warning, writes no
    file and returns no file reference; from two rows on it writes the
    header and every data row to [anki_deck.csv], replacing what the file
    held, and returns a visible reference to that file. *)
Theorem export_threshold (d : dataframe) (w : world) :
  (length (data d) < 2 ->
   export_csv d w
   = (Ok None,
      show (Warning "The dataframe has fewer than 2 rows. Nothing to export.")
        w)
   /\ files (snd (export_csv d w)) = files w) /\
  (2 <= length (data d) ->
   fst (export_csv d w)
   = Ok (Some {| value := "anki_deck.csv"; visible := true |})
   /\ notices (snd (export_csv d w)) = notices w ++ [Info "Exporting..."]
   /\ files (snd (export_csv d w))
      = <["anki_deck.csv" := (VStr <$> columns d) :: data d]> (files w)
   /\ files (snd (export_csv d w)) !! "anki_deck.csv"
      = Some ((VStr <$> columns d) :: data d)).
Proof.
  unfold export_csv, MIN_ROWS. split; intros Hlen.
  - apply Nat.ltb_lt in Hlen. rewrite Hlen. split; reflexivity.
  - apply Nat.ltb_ge in Hlen. rewrite Hlen.
    split_and!; try reflexivity. cbn. apply lookup_insert_eq.
Qed.

(** C6 on a table of one row and on a table of two rows, the second one
    exported over an older file. *)
Lemma export_threshold_witness :
  let header := ["Index"; "Topic"; "Question"; "Answer"; "Explanation";
                 "Example"] in
  let line i := [VStr i; VStr "Joins"; VStr "q"; VStr "a"; VStr "x"; VStr "y"] in
  let d1 := {| columns := header; data := [line "1.1"] |} in
  let d2 := {| columns := header; data := [line "1.1"; line "1.2"] |} in
  let old := write_file "anki_deck.csv" [[VStr "stale"]] initial_world in
  fst (export_csv d1 initial_world) = Ok None /\
  files (snd (export_csv d1 old)) = files old /\
  fst (export_csv d2 old)
  = Ok (Some {| value := "anki_deck.csv"; visible := true |}) /\
  files (snd (export_csv d2 old)) !! "anki_deck.csv"
  = Some [VStr <$> header; line "1.1"; line "1.2"].
Proof.
  intros header line d1 d2 old.
  assert (length (data d1) < 2) as H1 by (simpl; lia).
  assert (2 <= length (data d2)) as H2 by (simpl; lia).
  split; [|split; [|split]].
  - by rewrite (proj1 (proj1 (export_threshold d1 initial_world) H1)).
  - exact (proj2 (proj1 (export_threshold d1 old) H1)).
  - exact (proj1 (proj2 (export_threshold d2 old) H2)).
  - exact (proj2 (proj2 (proj2 (proj2 (export_threshold d2 old) H2)))).
Defined.

(** ** The topics phase *)

(** C7: when the topic request yields absence, or a value without a
    [result] attribute, or with an empty [result], the run ends with the
    empty row list and raises nothing; an exception raised while the
    labels are collected from the response is a fatal [gr.Error]. *)
Theorem soft_empty_result
    (OpenAI : string -> client) (py_format : pyval -> string)
    (key subject : string) (topic_number cards_per_topic : Z)
    (pref : string) (w : world) :
  key <> EmptyString ->
  let out := OpenAI key (calls w) (topic_request subject pref topic_number) in
  let run := generate_cards OpenAI py_format key subject topic_number
               cards_per_topic pref w in
  let stopped := (Ok (Rows []),
                  record_call (topic_request subject pref topic_number)
                    (show (Info "Starting process") w)) in
  (absent out -> run = stopped) /\
  (forall completion v,
     out = Returns completion -> inspect_completion completion = Ok v ->
     hasattr v "result" = false -> run = stopped) /\
  (forall completion v result,
     out = Returns completion -> inspect_completion completion = Ok v ->
     getattr v "result" = Ok result -> truthy result = false ->
     run = stopped) /\
  (forall completion v result e,
     out = Returns completion -> inspect_completion completion = Ok v ->
     getattr v "result" = Ok result -> truthy result = true ->
     flat_items v = Exc e ->
     fst run = Exc (GrError "Topic generation failed due to " (Some e))).
Proof.
  intros Hkey out run stopped. subst run stopped.
  rewrite generate_cards_run by exact Hkey. fold out.
  split_and!.
  - unfold absent, topics_of. destruct out as [e|completion]; [done|].
    by intros ->.
  - intros completion v -> Hv Hno. unfold topics_of. rewrite Hv, Hno.
    by destruct (is_None v).
  - intros completion v result -> Hv Hres Htruth. unfold topics_of.
    rewrite Hv, Hres, Htruth, orb_true_r. by destruct (is_None v).
  - intros completion v result e -> Hv Hres Htruth Hflat. unfold topics_of.
    rewrite Hv. unfold hasattr. rewrite Hres, Htruth, Hflat.
    destruct v; try discriminate Hres. reflexivity.
Qed.

(** C7 on concrete answers to the topic request. *)
Lemma soft_empty_result_witness :
  let run out :=
    fst (generate_cards (fun _ => script_client [out]) format_label "sk-key"
           "SQL" 3 2 "beginner" initial_world) in
  run (Raises (ClientError "timeout")) = Ok (Rows []) /\
  run (Returns (completion_of VNone)) = Ok (Rows []) /\
  run (Returns (completion_of (VObj []))) = Ok (Rows []) /\
  run (Returns (completion_of (val_Topics {| topics_result := [] |})))
    = Ok (Rows []) /\
  run (Returns (completion_of (VObj [("result", VStr "abc")])))
    = Exc (GrError "Topic generation failed due to "
             (Some (AttributeError "result"))).
Proof.
  intros run. subst run. cbv beta.
  assert ("sk-key" <> EmptyString) as Hkey by discriminate.
  pose (thm out := soft_empty_result (fun _ => script_client [out])
                     format_label "sk-key" "SQL" 3 2 "beginner" initial_world
                     Hkey).
  split_and!.
  - by rewrite (proj1 (thm (Raises (ClientError "timeout"))) I).
  - by rewrite (proj1 (thm (Returns (completion_of VNone))) eq_refl).
  - by rewrite (proj1 (proj2 (thm (Returns (completion_of (VObj [])))))
                  _ _ eq_refl eq_refl eq_refl).
  - by rewrite (proj1 (proj2 (proj2
                  (thm (Returns (completion_of
                                   (val_Topics {| topics_result := [] |}))))))
                  _ _ _ eq_refl eq_refl eq_refl eq_refl).
  - exact (proj2 (proj2 (proj2
             (thm (Returns (completion_of (VObj [("result", VStr "abc")]))))))
             _ _ (VStr "abc") _ eq_refl eq_refl eq_refl eq_refl eq_refl).
Defined.

Lemma topics_of_typed topic_number out t :
  topics_success out t ->
  topics_of topic_number out
  = Ok (match topics_result t with
        | [] => None
        | _ => Some (slice_upto topic_number (VStr <$> spec_labels t))
        end).
Proof.
  intros (completion & -> & Hparsed). unfold topics_of. rewrite Hparsed.
  destruct (topics_result t) as [|s ss] eqn:Hres.
  { destruct t as [ss]. simpl in Hres. by subst ss. }
  rewrite flat_items_typed.
  destruct t as [ss']. simpl in Hres. subst ss'. reflexivity.
Qed.

Lemma slice_upto_nonneg {A} n (l : list A) :
  (0 <= n)%Z -> slice_upto n l = take (Z.to_nat n) l.
Proof.
  intros Hn. unfold slice_upto.
  by destruct (Z.leb_spec 0 n); [|lia].
Qed.

(** C5: the labels of the per-subtopic results are taken in order, and
    only the first N of them are kept (all of them when there are fewer);
    one card request per kept label is issued, in that order. *)
Theorem topics_truncated
    (OpenAI : string -> client) (py_format : pyval -> string)
    (key subject : string) (topic_number cards_per_topic : Z)
    (pref : string) (w : world) (t : Topics) :
  key <> EmptyString ->
  (0 <= topic_number)%Z ->
  topics_success
    (OpenAI key (calls w) (topic_request subject pref topic_number)) t ->
  let labels := take (Z.to_nat topic_number) (spec_labels t) in
  (topics_result t <> [] ->
   fst (topics_block (OpenAI key) "gpt-4o-mini"
          (system_prompt_of subject pref)
          (topic_prompt_of topic_number subject) topic_number w)
   = Ok (Some (VStr <$> labels))) /\
  calls (snd (generate_cards OpenAI py_format key subject topic_number
                cards_per_topic pref w))
  = calls w ++ topic_request subject pref topic_number
               :: (card_request py_format subject pref cards_per_topic
                     <$> (VStr <$> labels)) /\
  labels `prefix_of` spec_labels t /\
  length labels = Z.to_nat topic_number `min` length (spec_labels t).
Proof.
  intros Hkey Hn Htopics labels. subst labels. split_and!.
  - intros Hne. rewrite topics_block_run.
    fold (topic_request subject pref topic_number). cbn [fst].
    rewrite (topics_of_typed _ _ _ Htopics).
    destruct (topics_result t); [done|].
    by rewrite slice_upto_nonneg, fmap_take.
  - rewrite generate_cards_run by exact Hkey.
    rewrite (topics_of_typed _ _ _ Htopics).
    destruct (topics_result t) as [|s ss] eqn:Hres.
    + unfold spec_labels. rewrite Hres. simpl.
      by rewrite take_nil.
    + cbn [snd calls record_calls show].
      rewrite slice_upto_nonneg by done. by rewrite !fmap_take.
  - apply prefix_take.
  - apply length_take.
Qed.

(** C5 when three topics are asked for and five groups come back, and when
    five are asked for and three labels come back. *)
Lemma topics_truncated_witness :
  let run t n :=
    fst (topics_block (script_client [Returns (completion_of (val_Topics t))])
           "gpt-4o-mini" (system_prompt_of "SQL" "beginner")
           (topic_prompt_of n "SQL") n initial_world) in
  run five_groups 3%Z
  = Ok (Some [VStr "Select"; VStr "Joins"; VStr "Indexes"]) /\
  run two_groups 5%Z
  = Ok (Some [VStr "Select"; VStr "Joins"; VStr "Indexes"]).
Proof.
  intros run. subst run. cbv beta.
  assert ("sk-key" <> EmptyString) as Hkey by discriminate.
  pose (thm t n H := topics_truncated
                       (fun _ => script_client
                                   [Returns (completion_of (val_Topics t))])
                       format_label "sk-key" "SQL" n 2 "beginner"
                       initial_world t Hkey H
                       (ex_intro _ _ (conj eq_refl eq_refl))).
  split.
  - assert (0 <= 3)%Z as H by lia.
    exact (proj1 (thm five_groups 3%Z H) ltac:(discriminate)).
  - assert (0 <= 5)%Z as H by lia.
    exact (proj1 (thm two_groups 5%Z H) ltac:(discriminate)).
Defined.

(** ** The index strings *)

Lemma StronglySorted_lookup_lt {A} (R : relation A) (l : list A) i j a b :
  StronglySorted R l -> l !! i = Some a -> l !! j = Some b -> i < j -> R a b.
Proof.
  intros Hs. revert i j.
  induction Hs as [|x l Hs IH Hall]; intros i j Hi Hj Hlt; [done|].
  destruct i as [|i], j as [|j]; simplify_eq/=; try lia.
  - rewrite Forall_forall in Hall. apply Hall.
    by eapply list_elem_of_lookup_2.
  - eapply IH; [done..|lia].
Qed.

Lemma StronglySorted_irrefl_NoDup {A} (R : relation A) (l : list A) :
  (forall x, ~ R x x) -> StronglySorted R l -> NoDup l.
Proof.
  intros Hirr. induction 1 as [|x l Hs IH Hall]; constructor; [|done].
  intros Hin. rewrite Forall_forall in Hall. by apply (Hirr x), Hall.
Qed.

Lemma numbered_NoDup next rows :
  numbered_upto next rows -> NoDup (Index <$> rows).
Proof.
  intros [Hs _]. apply (NoDup_fmap_1 parse_index).
  eapply StronglySorted_irrefl_NoDup; [|done].
  intros x. unfold emitted_before. lia.
Qed.

Lemma numbered_grouped next rows k k' p q ip iq :
  numbered_upto next rows ->
  k < k' ->
  (Index <$> rows) !! p = Some ip -> (Index <$> rows) !! q = Some iq ->
  in_group k ip -> in_group k' iq -> p < q.
Proof.
  intros [Hs _] Hk Hp Hq [sp ->] [sq ->].
  destruct (decide (p < q)) as [|Hge]; [done|exfalso].
  destruct (decide (p = q)) as [->|Hne].
  { rewrite Hp in Hq. injection Hq as Heq.
    apply (f_equal (fun s => fst (parse_index s))) in Heq.
    rewrite !parse_index_group in Heq. lia. }
  assert (emitted_before (parse_index (str_nat k' +:+ "." +:+ sq))
            (parse_index (str_nat k +:+ "." +:+ sp))) as Hlt.
  { eapply (StronglySorted_lookup_lt _ _ q p); [exact Hs| | |lia];
      rewrite list_lookup_fmap; [by rewrite Hq|by rewrite Hp]. }
  unfold emitted_before in Hlt. rewrite !parse_index_group in Hlt. lia.
Qed.

Lemma generate_cards_numbered OpenAI py_format key subject topic_number
    cards_per_topic pref w rows w' :
  generate_cards OpenAI py_format key subject topic_number cards_per_topic
    pref w = (Ok (Rows rows), w') ->
  exists next, numbered_upto next rows.
Proof.
  destruct (decide (key = EmptyString)) as [->|Hkey].
  { by rewrite generate_cards_without_key. }
  rewrite generate_cards_run by exact Hkey.
  destruct (topics_of _ _) as [[topic_list|]|e]; [| |done].
  - destruct (flatten_card_lists _ _ _) as [rows'|e] eqn:Hflat; [|done].
    intros [= <- _].
    destruct (flatten_card_lists_numbered _ _ _ _ Hflat
                (numbered_upto_nil _)) as [k' Hk'].
    eauto.
  - intros [= <- _]. exists (1, 1). apply numbered_upto_nil.
Qed.

(** C8: whenever [generate_cards] returns rows, their index strings are
    pairwise distinct, and a row of a group comes before every row of a
    later group (in particular all rows ["k. ..."] come before the rows
    ["k+1. ..."]). *)
Theorem indices_distinct_and_grouped
    (OpenAI : string -> client) (py_format : pyval -> string)
    (key subject : string) (topic_number cards_per_topic : Z)
    (pref : string) (w w' : world) (rows : list row) :
  generate_cards OpenAI py_format key subject topic_number cards_per_topic
    pref w = (Ok (Rows rows), w') ->
  NoDup (Index <$> rows) /\
  (forall k k' p q ip iq,
     k < k' ->
     (Index <$> rows) !! p = Some ip -> (Index <$> rows) !! q = Some iq ->
     in_group k ip -> in_group k' iq -> p < q).
Proof.
  intros Hrun. destruct (generate_cards_numbered _ _ _ _ _ _ _ _ _ _ Hrun)
    as [next Hnum].
  split; [by eapply numbered_NoDup|].
  intros k k' p q ip iq. exact (numbered_grouped next rows k k' p q ip iq Hnum).
Qed.

(** C8 on the run in which every topic is answered. *)
Lemma indices_distinct_and_grouped_witness :
  let run := generate_cards (fun _ => all_answered) format_label "sk-key"
               "SQL" 3 2 "beginner" initial_world in
  exists rows,
    fst run = Ok (Rows rows) /\
    Index <$> rows
    = ["1.1"; "1.2"; "1.3"; "2.1"; "3.01"; "3.02"; "3.03"; "3.04"; "3.05";
       "3.06"; "3.07"; "3.08"; "3.09"; "3.10"] /\
    NoDup (Index <$> rows).
Proof.
  intros run.
  set (rows := match fst run with Ok (Rows r) => r | _ => [] end).
  assert (run = (Ok (Rows rows), snd run)) as Hrun by (vm_compute; reflexivity).
  exists rows. split; [by rewrite Hrun|]. split; [vm_compute; reflexivity|].
  exact (proj1 (indices_distinct_and_grouped (fun _ => all_answered)
                  format_label "sk-key" "SQL" 3 2 "beginner" initial_world
                  (snd run) rows Hrun)).
Defined.

Lemma spec_row_in_rows (cls : list CardList) j cl i c :
  cls !! j = Some cl -> cards cl !! i = Some c ->
  spec_row (S j) cl (S i) c ∈ spec_rows cls.
Proof.
  intros Hj Hi. unfold spec_rows.
  destruct (spec_rows_from_lookup 1 _ _ _ Hj) as (before & after & ->).
  apply elem_of_app. right. apply elem_of_app. left.
  apply list_elem_of_lookup. exists i.
  unfold spec_rows_of. by rewrite list_lookup_imap, Hi.
Qed.

(** C3: on well-formed card lists the flattening loop yields, for card
    number i of the list number k, the index ["k." ++ suffix] where the
    suffix is i left-padded with zeros to exactly [len(str(T))] characters,
    T being the number of cards of that very list; ten cards give 01..10,
    three cards give 1..3, both in one output. *)
Theorem padding_width_per_topic (cls : list CardList) :
  flatten_card_lists 1 (val_CardList <$> cls)
    {| index := None; flattened_data := [] |} = Ok (spec_rows cls) /\
  (forall j cl i c,
     cls !! j = Some cl -> cards cl !! i = Some c ->
     spec_row (S j) cl (S i) c ∈ spec_rows cls /\
     exists suffix zs,
       Index (spec_row (S j) cl (S i) c) = str_nat (S j) +:+ "." +:+ suffix /\
       suffix = zeros zs +:+ str_nat (S i) /\
       String.length suffix = String.length (str_nat (length (cards cl)))) /\
  Index <$> spec_rows [ten_cards; three_cards]
  = ["1.01"; "1.02"; "1.03"; "1.04"; "1.05"; "1.06"; "1.07"; "1.08"; "1.09";
     "1.10"; "2.1"; "2.2"; "2.3"].
Proof.
  split_and!.
  - by rewrite flatten_card_lists_typed.
  - intros j cl i c Hj Hi. split; [by apply spec_row_in_rows|].
    eexists _, _. split_and!; [reflexivity..|].
    apply format_zero_padded_length.
    apply lookup_lt_Some in Hi. lia.
  - reflexivity.
Qed.

(** C3 on the sixth card of a list of ten cards, second in the output. *)
Lemma padding_width_per_topic_witness :
  exists suffix zs,
    Index (spec_row 2 ten_cards 6 (mk_card "q" "a")) = "2." +:+ suffix /\
    suffix = zeros zs +:+ "6" /\
    String.length suffix = 2.
Proof.
  exact (proj2 (proj1 (proj2 (padding_width_per_topic [three_cards; ten_cards]))
                  1 ten_cards 5 (mk_card "q" "a") eq_refl eq_refl)).
Defined.

(** ** Whole runs *)

Lemma answers_length c history reqs :
  length (answers c history reqs) = length reqs.
Proof.
  revert history. induction reqs as [|r reqs IH]; intros history; [done|].
  simpl. by rewrite IH.
Qed.

Lemma card_success_answers outs cls :
  Forall2 card_success outs cls -> Forall2 card_answer outs (Some <$> cls).
Proof. induction 1; constructor; done. Qed.

Lemma omap_id_Some {A} (l : list A) : omap id (Some <$> l) = l.
Proof. induction l as [|x l IH]; [done|]. simpl. f_equal. exact IH. Qed.

Lemma spec_rows_of_group k cl r :
  r ∈ spec_rows_of k cl -> in_group k (Index r).
Proof.
  unfold spec_rows_of. intros Hr.
  apply list_elem_of_lookup in Hr as [i Hi].
  rewrite list_lookup_imap in Hi.
  destruct (cards cl !! i) as [c|]; [|done]. injection Hi as <-.
  eexists. reflexivity.
Qed.

Lemma answers_script script history history' reqs reqs' :
  length history = length history' -> length reqs = length reqs' ->
  answers (script_client script) history reqs
  = answers (script_client script) history' reqs'.
Proof.
  revert history history' reqs'.
  induction reqs as [|r reqs IH]; intros history history' [|r' reqs'] Hh Hr;
    try done.
  simpl. f_equal.
  - unfold script_client. by rewrite Hh.
  - apply IH; [|by injection Hr]. rewrite !length_app. simpl. lia.
Qed.

(** The number of cards asked for reaches the prompt only: against a client
    that plays a fixed list of answers, two runs that differ in it return
    the same value. *)
Lemma cards_per_topic_only_in_prompt script py_format key subject pref
    topic_number cards_per_topic cards_per_topic' w :
  fst (generate_cards (fun _ => script_client script) py_format key subject
         topic_number cards_per_topic pref w)
  = fst (generate_cards (fun _ => script_client script) py_format key subject
           topic_number cards_per_topic' pref w).
Proof.
  destruct (decide (key = EmptyString)) as [->|Hkey]; [done|].
  rewrite !generate_cards_run by exact Hkey.
  destruct (topics_of _ _) as [[topic_list|]|e]; [|done..].
  cbn [fst].
  by rewrite (answers_script script _ _ _
                (card_request py_format subject pref cards_per_topic'
                   <$> topic_list)) by (by rewrite ?length_fmap).
Qed.

Section TypedRuns.

Variable OpenAI : string -> client.
Variable py_format : pyval -> string.
Variables key subject pref : string.
Variables topic_number cards_per_topic : Z.
Variable w : world.
Variable t : Topics.

Hypothesis credential : key <> EmptyString.
Hypothesis topics_generated :
  topics_success
    (OpenAI key (calls w) (topic_request subject pref topic_number)) t.

(** The topics that are asked for cards, and the answers given for them. *)
Let topic_list : list pyval :=
  slice_upto topic_number (VStr <$> spec_labels t).
Let card_answers : list api_outcome :=
  answers (OpenAI key) (calls w ++ [topic_request subject pref topic_number])
    (card_request py_format subject pref cards_per_topic <$> topic_list).
Let run : res returned * world :=
  generate_cards OpenAI py_format key subject topic_number cards_per_topic
    pref w.

(** C4: topics whose card generation fails (or yields a value without the
    expected fields) are skipped and the run goes on: every topic is asked
    for, the output holds the rows of the successful card lists only, and
    the list that succeeded as number j (counted from 1) carries the group
    prefix j, whatever the position of its topic. *)
Theorem skip_and_continue (rs : list (option CardList)) :
  Forall2 card_answer card_answers rs ->
  fst run = Ok (Rows (spec_rows (omap id rs))) /\
  calls (snd run)
  = calls w ++ topic_request subject pref topic_number
               :: (card_request py_format subject pref cards_per_topic
                     <$> topic_list) /\
  (forall j cl r,
     omap id rs !! j = Some cl -> r ∈ spec_rows_of (S j) cl ->
     r ∈ spec_rows (omap id rs) /\ in_group (S j) (Index r)).
Proof.
  intros Hcards. subst run.
  rewrite (generate_cards_typed _ _ _ _ _ _ _ _ t rs) by done.
  split_and!; [done..|].
  intros j cl r Hj Hr. split; [|by eapply spec_rows_of_group].
  destruct (spec_rows_from_lookup 1 _ _ _ Hj) as (before & after & Heq).
  unfold spec_rows. rewrite Heq. set_solver.
Qed.

(** C9: when every topic is answered by a card list, each card gives one
    row and there is no other row: the rows number the sum of the cards
    returned, that is (topics) x (cards per topic) when every topic
    returned the same number of cards. *)
Theorem row_count (cls : list CardList) :
  Forall2 card_success card_answers cls ->
  exists rows,
    fst run = Ok (Rows rows) /\
    length cls = length topic_list /\
    length rows = sum_list (length ∘ cards <$> cls) /\
    (forall n, Forall (fun cl => length (cards cl) = n) cls ->
               length rows = length topic_list * n).
Proof.
  intros Hcards. exists (spec_rows cls). subst run.
  rewrite (generate_cards_typed _ _ _ _ _ _ _ _ t (Some <$> cls))
    by auto using card_success_answers.
  rewrite omap_id_Some. unfold spec_rows.
  assert (length cls = length topic_list) as Hlen.
  { apply Forall2_length in Hcards. subst card_answers.
    by rewrite answers_length, length_fmap in Hcards. }
  split_and!; [done..|apply spec_rows_from_length|].
  intros n Hall. rewrite spec_rows_from_length, <- Hlen.
  clear -Hall. induction Hall as [|cl cls Hcl _ IH]; [done|].
  rewrite fmap_cons. cbn [sum_list sum_list_with length].
  unfold compose at 1. rewrite Hcl.
  transitivity (n + sum_list (length ∘ cards <$> cls)); [done|].
  rewrite IH. lia.
Qed.

(** C10: whatever number of cards per topic was asked for, the rows of a
    successfully generated topic are the cards of its answer, all of them
    and only them, in order: nothing is cut off or filled in. *)
Theorem cards_never_truncated (rs : list (option CardList)) :
  Forall2 card_answer card_answers rs ->
  exists rows,
    fst run = Ok (Rows rows) /\
    forall j cl,
      omap id rs !! j = Some cl ->
      (exists before after, rows = before ++ spec_rows_of (S j) cl ++ after) /\
      length (spec_rows_of (S j) cl) = length (cards cl) /\
      (forall i c,
         cards cl !! i = Some c ->
         exists r,
           spec_rows_of (S j) cl !! i = Some r /\
           Topic r = VStr (topic cl) /\
           Question r = val_opt (question (front c)) /\
           Answer r = val_opt (answer (back c)) /\
           Explanation r = VStr (explanation (back c)) /\
           Example r = VStr (example (back c))).
Proof.
  intros Hcards. exists (spec_rows (omap id rs)). subst run.
  rewrite (generate_cards_typed _ _ _ _ _ _ _ _ t rs) by done.
  split; [done|]. intros j cl Hj. split_and!.
  - apply (spec_rows_from_lookup 1 _ _ _ Hj).
  - apply spec_rows_of_length.
  - intros i c Hi. eexists. unfold spec_rows_of.
    rewrite list_lookup_imap, Hi. by split_and!.
Qed.

End TypedRuns.

Ltac answered :=
  repeat first
    [ apply Forall2_nil_2
    | apply Forall2_cons_2
    | exact I
    | eexists; split; reflexivity ].

(** C4 when topic 2 of 3 fails: the rows of topics 1 and 3 come out with
    the prefixes 1 and 2. *)
Lemma skip_and_continue_witness :
  fst (generate_cards (fun _ => second_fails) format_label "sk-key" "SQL" 3 2
         "beginner" initial_world)
  = Ok (Rows (spec_rows [three_cards; ten_cards])) /\
  Index <$> spec_rows [three_cards; ten_cards]
  = ["1.1"; "1.2"; "1.3"; "2.01"; "2.02"; "2.03"; "2.04"; "2.05"; "2.06";
     "2.07"; "2.08"; "2.09"; "2.10"].
Proof.
  split; [|reflexivity].
  refine (proj1 (skip_and_continue (fun _ => second_fails) format_label
                   "sk-key" "SQL" "beginner" 3 2 initial_world two_groups
                   _ _ [Some three_cards; None; Some ten_cards] _)).
  - discriminate.
  - eexists; split; reflexivity.
  - answered.
Defined.

(** C9 on three topics of three cards each. *)
Lemma row_count_witness :
  exists rows,
    fst (generate_cards (fun _ => three_each) format_label "sk-key" "SQL" 3 2
           "beginner" initial_world) = Ok (Rows rows) /\
    length rows = 3 * 3.
Proof.
  assert ("sk-key" <> EmptyString) as Hkey by discriminate.
  destruct (row_count (fun _ => three_each) format_label
              "sk-key" "SQL" "beginner" 3 2 initial_world two_groups Hkey
              (ex_intro _ _ (conj eq_refl eq_refl))
              [three_cards; three_cards; three_cards])
    as (rows & Hrun & _ & _ & Hprod).
  { answered. }
  exists rows. split; [exact Hrun|].
  apply (Hprod 3). repeat constructor.
Defined.

(** C10 when two cards per topic are asked for and three, one and ten come
    back: the ten rows of the third topic are all there. *)
Lemma cards_never_truncated_witness :
  exists rows,
    fst (generate_cards (fun _ => all_answered) format_label "sk-key" "SQL" 3
           2 "beginner" initial_world) = Ok (Rows rows) /\
    (exists before after, rows = before ++ spec_rows_of 3 ten_cards ++ after) /\
    length (spec_rows_of 3 ten_cards) = 10.
Proof.
  assert ("sk-key" <> EmptyString) as Hkey by discriminate.
  destruct (cards_never_truncated (fun _ => all_answered) format_label
              "sk-key" "SQL" "beginner" 3 2 initial_world two_groups Hkey
              (ex_intro _ _ (conj eq_refl eq_refl))
              [Some three_cards; Some one_card; Some ten_cards])
    as (rows & Hrun & Hall).
  { answered. }
  exists rows. split; [exact Hrun|].
  destruct (Hall 2 ten_cards eq_refl) as (Hin & Hlen & _).
  split; [exact Hin|exact Hlen].
Defined.

(** * Further properties of the code *)

(** ** The request sent by the invoker *)






(** ** What the invoker returns and raises *)

(** X2: when the completion has a non-empty list of choices, the first
    choice has a message and the message a [parsed] attribute, the invoker
    returns that parsed value, whatever the other choices are. *)
Theorem invoker_returns_first_choice
    (c : client) (model : string) (fmt : shape) (sp up : string) (w : world)
    (completion first_choice message parsed : pyval) (others : list pyval) :
  c (calls w) {| req_model := model; req_system := strip sp;
                 req_user := strip up; req_format := fmt |}
  = Returns completion ->
  getattr completion "choices" = Ok (VList (first_choice :: others)) ->
  getattr first_choice "message" = Ok message ->
  getattr message "parsed" = Ok parsed ->
  fst (structured_output_completion c model fmt sp up w) = Ok parsed.
Proof.
  intros Hc Hch Hm Hp. rewrite structured_output_completion_run, Hc.
  cbn [fst]. unfold inspect_completion, hasattr.
  rewrite Hch. cbn -[getattr]. rewrite Hm. cbn -[getattr]. rewrite Hp.
  reflexivity.
Qed.

Lemma invoker_returns_first_choice_witness :
  fst (structured_output_completion
         (script_client
            [Returns (VObj [("id", VStr "cmpl-1");
                            ("choices",
                             VList [VObj [("message",
                                           VObj [("parsed", VStr "first")])];
                                    VObj [("message",
                                           VObj [("parsed", VStr "second")])]])])])
         "gpt-4o-mini" TopicsFormat "system" "user" initial_world)
  = Ok (VStr "first").
Proof.
  eapply (invoker_returns_first_choice (script_client [_]));
    reflexivity.
Defined.

Lemma inspect_completion_raises completion e :
  inspect_completion completion = Exc e ->
  e = TypeError "object is not subscriptable".
Proof.
  unfold inspect_completion, hasattr.
  destruct (getattr completion "choices") as [choices|e0]; [|done].
  destruct (truthy choices) eqn:Ht; [|done]. cbn -[getattr].
  unfold getitem0.
  destruct choices as [|s|items|attrs]; simpl in *; try done.
  - destruct s as [|a s]; [done|]. simpl. done.
  - destruct items as [|first items]; [done|]. cbn -[getattr].
    destruct (getattr first "message") as [message|e1]; [|done].
    cbn -[getattr].
    destruct (getattr message "parsed") as [parsed|e2]; [|done]. done.
  - by intros [= <-].
Qed.

(** X3: the only exception the invoker lets out is [gr.Error] with the
    message ["Processing error: ..."] around a [TypeError], and it does so
    only for a completion whose [choices] is truthy and cannot be
    subscripted: failures of the API call itself never raise. *)
Theorem invoker_raises_only_gr_error
    (c : client) (model : string) (fmt : shape) (sp up : string) (w : world)
    (e : exn) :
  fst (structured_output_completion c model fmt sp up w) = Exc e ->
  exists completion choices what,
    e = GrError "Processing error: " (Some (TypeError what)) /\
    c (calls w) {| req_model := model; req_system := strip sp;
                   req_user := strip up; req_format := fmt |}
    = Returns completion /\
    getattr completion "choices" = Ok choices /\
    truthy choices = true /\
    getitem0 choices = Exc (TypeError what).
Proof.
  rewrite structured_output_completion_run. cbn [fst].
  destruct (c _ _) as [e0|completion]; [done|].
  destruct (inspect_completion completion) as [v|e0] eqn:Hi; [done|].
  intros [= <-]. pose proof (inspect_completion_raises _ _ Hi) as ->.
  exists completion.
  unfold inspect_completion, hasattr in Hi.
  destruct (getattr completion "choices") as [choices|e0]; [|done].
  exists choices, "object is not subscriptable".
  destruct (truthy choices) eqn:Ht; [|done].
  split_and!; try done. cbn -[getattr getitem0] in Hi.
  destruct (getitem0 choices) as [first|e1] eqn:Hg.
  - cbn -[getattr] in Hi.
    destruct (getattr first "message") as [message|e1]; [|done].
    cbn -[getattr] in Hi.
    by destruct (getattr message "parsed").
  - by injection Hi as ->.
Qed.

Lemma invoker_raises_only_gr_error_witness :
  exists completion choices what,
    GrError "Processing error: "
      (Some (TypeError "object is not subscriptable"))
    = GrError "Processing error: " (Some (TypeError what)) /\
    script_client [Returns odd_completion] (calls initial_world)
      {| req_model := "gpt-4o-mini"; req_system := strip "system";
         req_user := strip "user"; req_format := TopicsFormat |}
    = Returns completion /\
    getattr completion "choices" = Ok choices /\
    truthy choices = true /\
    getitem0 choices = Exc (TypeError what).
Proof.
  exact (invoker_raises_only_gr_error (script_client [Returns odd_completion])
           "gpt-4o-mini" TopicsFormat "system" "user" initial_world _
           eq_refl).
Defined.

(** ** What a run does to the world *)

Lemma topics_of_length topic_number out topic_list :
  topics_of topic_number out = Ok (Some topic_list) ->
  (0 <= topic_number)%Z ->
  length topic_list <= Z.to_nat topic_number.
Proof.
  unfold topics_of. intros H Hn.
  destruct out as [e|completion]; [done|].
  destruct (inspect_completion completion) as [v|e]; [|done].
  destruct (is_None v); [done|].
  destruct (negb (hasattr v "result") || _); [done|].
  destruct (flat_items v) as [items|e]; [|done].
  injection H as <-. rewrite slice_upto_nonneg by done.
  rewrite length_take. lia.
Qed.

Lemma topics_of_raises topic_number out e :
  topics_of topic_number out = Exc e ->
  exists cause, e = GrError "Topic generation failed due to " (Some cause).
Proof.
  unfold topics_of. intros H.
  destruct out as [e0|completion]; [done|].
  destruct (inspect_completion completion) as [v|e0].
  - destruct (is_None v); [done|].
    destruct (negb (hasattr v "result") || _); [done|].
    destruct (flat_items v) as [items|e0]; [done|].
    injection H as <-. eauto.
  - injection H as <-. eauto.
Qed.

Lemma flatten_card_lists_raises k all_card_lists st e :
  flatten_card_lists k all_card_lists st = Exc e ->
  e = UnboundLocalError "index".
Proof.
  revert k st. induction all_card_lists as [|card_list rest IH];
    intros k st H; [done|].
  cbn [flatten_card_lists] in H.
  destruct (flatten_card_list k card_list st) as [[[]|e0] st1]; [by eapply IH|].
  destruct (index st1); [by eapply IH|]. by injection H as <-.
Qed.



(** X5: every run, with or without a credential, whether it returns or
    raises, shows exactly one notification, ["Starting process"], and
    leaves the files alone. *)
Theorem generate_cards_notifies_once
    (OpenAI : string -> client) (py_format : pyval -> string)
    (key subject : string) (topic_number cards_per_topic : Z)
    (pref : string) (w : world) :
  let w' := snd (generate_cards OpenAI py_format key subject topic_number
                   cards_per_topic pref w) in
  notices w' = notices w ++ [Info "Starting process"] /\ files w' = files w.
Proof.
  destruct (decide (key = EmptyString)) as [->|Hkey]; [done|].
  cbv zeta. rewrite generate_cards_run by exact Hkey.
  by destruct (topics_of _ _) as [[topic_list|]|e].
Qed.



(** X7: the exceptions a run lets out are [gr.Error] ["Topic generation
    failed due to ..."], raised before any card request, and the
    [UnboundLocalError] of [index]; a failing card request never raises. *)
Theorem generate_cards_escaping_exceptions
    (OpenAI : string -> client) (py_format : pyval -> string)
    (key subject : string) (topic_number cards_per_topic : Z)
    (pref : string) (w : world) (e : exn) :
  fst (generate_cards OpenAI py_format key subject topic_number
         cards_per_topic pref w) = Exc e ->
  ((exists cause,
      e = GrError "Topic generation failed due to " (Some cause)) /\
   calls (snd (generate_cards OpenAI py_format key subject topic_number
                 cards_per_topic pref w))
   = calls w ++ [topic_request subject pref topic_number])
  \/ e = UnboundLocalError "index".
Proof.
  destruct (decide (key = EmptyString)) as [->|Hkey]; [done|].
  rewrite generate_cards_run by exact Hkey.
  destruct (topics_of _ _) as [[topic_list|]|e0] eqn:Htopics; cbn [fst snd].
  - destruct (flatten_card_lists _ _ _) as [rows|e0] eqn:Hflat; [done|].
    intros [= <-]. right. by eapply flatten_card_lists_raises.
  - done.
  - intros [= <-]. left. split; [by eapply topics_of_raises|done].
Qed.

Lemma generate_cards_escaping_exceptions_witness :
  ((exists cause,
      GrError "Topic generation failed due to "
        (Some (AttributeError "result"))
      = GrError "Topic generation failed due to " (Some cause)) /\
   calls (snd (generate_cards
                 (fun _ => script_client
                    [Returns (completion_of (VObj [("result", VStr "abc")]))])
                 format_label "sk-key" "SQL" 3 2 "beginner" initial_world))
   = calls initial_world ++ [topic_request "SQL" "beginner" 3])
  \/ GrError "Topic generation failed due to "
       (Some (AttributeError "result"))
     = UnboundLocalError "index".
Proof.
  exact (generate_cards_escaping_exceptions
           (fun _ => script_client
              [Returns (completion_of (VObj [("result", VStr "abc")]))])
           format_label "sk-key" "SQL" 3 2 "beginner" initial_world _
           eq_refl).
Defined.

(** ** Card lists that cannot be flattened *)

(** X8: when the topics are generated and the answer accepted for the very
    first topic has [topic] and [cards] attributes but its [cards] has no
    length (it is [None], say), the run does not skip that list: the
    handler of the flattening loop reads [index] before any card was
    formatted, and the run raises [UnboundLocalError], whatever the other
    topics were answered. *)
Theorem first_list_without_length_crashes
    (OpenAI : string -> client) (py_format : pyval -> string)
    (key subject : string) (topic_number cards_per_topic : Z)
    (pref : string) (w : world) (t : Topics)
    (first_topic : pyval) (other_topics : list pyval)
    (completion v topic_value cards_value : pyval) (e : exn) :
  key <> EmptyString ->
  topics_success
    (OpenAI key (calls w) (topic_request subject pref topic_number)) t ->
  slice_upto topic_number (VStr <$> spec_labels t)
  = first_topic :: other_topics ->
  OpenAI key (calls w ++ [topic_request subject pref topic_number])
    (card_request py_format subject pref cards_per_topic first_topic)
  = Returns completion ->
  inspect_completion completion = Ok v ->
  getattr v "topic" = Ok topic_value ->
  getattr v "cards" = Ok cards_value ->
  py_len cards_value = Exc e ->
  fst (generate_cards OpenAI py_format key subject topic_number
         cards_per_topic pref w)
  = Exc (UnboundLocalError "index").
Proof.
  intros Hkey Htopics Hlist Hout Hinspect Htopic Hcards Hlen.
  rewrite generate_cards_run by exact Hkey.
  rewrite (topics_of_typed _ _ _ Htopics).
  destruct (topics_result t) as [|s ss] eqn:Hres.
  { unfold spec_labels in Hlist. rewrite Hres in Hlist. simpl in Hlist.
    by rewrite slice_upto_nil in Hlist. }
  rewrite Hlist, fmap_cons. cbn [answers omap list_omap fst].
  rewrite Hout. unfold accepted at 1. rewrite Hinspect.
  assert (is_None v = false) as -> by (by destruct v).
  unfold hasattr. rewrite Htopic, Hcards. cbn [negb orb].
  cbn [flatten_card_lists]. unfold flatten_card_list.
  rewrite Htopic, Hcards. cbn [res_bind]. rewrite Hlen. reflexivity.
Qed.

Lemma first_list_without_length_crashes_witness :
  fst (generate_cards
         (fun _ => script_client
            [Returns (completion_of (val_Topics two_groups));
             Returns (completion_of
                        (VObj [("topic", VStr "Select"); ("cards", VNone)]));
             Returns (completion_of (val_CardList three_cards))])
         format_label "sk-key" "SQL" 3 2 "beginner" initial_world)
  = Exc (UnboundLocalError "index").
Proof.
  assert ("sk-key" <> EmptyString) as Hkey by discriminate.
  eapply (first_list_without_length_crashes (fun _ => script_client _)
            format_label "sk-key" "SQL" 3 2 "beginner" initial_world
            two_groups (VStr "Select") [VStr "Joins"; VStr "Indexes"]
            _ _ (VStr "Select") VNone _ Hkey);
    try reflexivity.
  eexists. split; reflexivity.
Defined.

Lemma flatten_cards_until_unreadable k width topic_label (good : list Card)
    bad rest i st e :
  getattr bad "front" = Exc e ->
  flatten_cards k width topic_label i ((val_Card <$> good) ++ bad :: rest) st
  = (Exc e,
     {| index := Some (str_nat k +:+ "." +:+
                       format_zero_padded (i + length good) width);
        flattened_data :=
          flattened_data st
          ++ imap (fun j c => card_row k width topic_label (i + j) c) good |}).
Proof.
  intros Hbad. revert i st. induction good as [|c good IH]; intros i st.
  - simpl. unfold flatten_card. rewrite Hbad. cbn [res_bind].
    by rewrite Nat.add_0_r, app_nil_r.
  - rewrite fmap_cons. cbn [app flatten_cards].
    change (flatten_card k width topic_label i (val_Card c) st)
      with (Ok tt, {| index := Some (Index (card_row k width topic_label i c));
                      flattened_data :=
                        flattened_data st ++ [card_row k width topic_label i c] |}).
    cbv iota beta. rewrite IH. cbn [flattened_data length]. f_equal. f_equal.
    + by replace (S i + length good) with (i + S (length good)) by lia.
    + rewrite imap_cons, <- app_assoc. simpl. rewrite Nat.add_0_r.
      do 2 f_equal. apply imap_ext. intros j c' _. simpl.
      by rewrite Nat.add_succ_r.
Qed.

(** X9: a card without a [front] ends the flattening of its list: the rows
    of the cards before it stay, padded to the width of the full count of
    the list, the cards after it give no row, and the lists that follow
    are flattened under the next group numbers. *)
Theorem unreadable_card_ends_its_list
    (k : nat) (topic_label bad : pyval) (good : list Card)
    (rest : list pyval) (cls : list CardList) (st : locals) (e : exn) :
  getattr bad "front" = Exc e ->
  let width :=
    String.length (str_nat (length good + S (length rest))) in
  flatten_card_lists k
    (VObj [("topic", topic_label);
           ("cards", VList ((val_Card <$> good) ++ bad :: rest))]
     :: (val_CardList <$> cls)) st
  = Ok (flattened_data st
        ++ imap (fun j c => card_row k width topic_label (S j) c) good
        ++ spec_rows_from (S k) cls).
Proof.
  intros Hbad width. cbn [flatten_card_lists]. unfold flatten_card_list.
  cbn -[flatten_cards str_nat flatten_card_lists].
  rewrite length_app, length_fmap. cbn [length]. fold width.
  rewrite (flatten_cards_until_unreadable _ _ _ _ _ _ _ _ e) by exact Hbad.
  cbn [index]. rewrite flatten_card_lists_typed. cbn [flattened_data].
  by rewrite <- app_assoc.
Qed.

Lemma unreadable_card_ends_its_list_witness :
  exists rows,
    flatten_card_lists 1
      [VObj [("topic", VStr "Joins");
             ("cards", VList [val_Card (mk_card "q1" "a1"); VNone;
                              val_Card (mk_card "q3" "a3")])];
       val_CardList three_cards]
      {| index := None; flattened_data := [] |} = Ok rows /\
    Index <$> rows = ["1.1"; "2.1"; "2.2"; "2.3"].
Proof.
  eexists. split.
  - exact (unreadable_card_ends_its_list 1 (VStr "Joins") VNone
             [mk_card "q1" "a1"] [val_Card (mk_card "q3" "a3")]
             [three_cards] {| index := None; flattened_data := [] |}
             (AttributeError "front") eq_refl).
  - reflexivity.
Defined.

(** ** Group numbers *)

Lemma in_group_unique k k' idx : in_group k idx -> in_group k' idx -> k = k'.
Proof.
  intros [s ->] [s' H].
  apply (f_equal (fun x => fst (parse_index x))) in H.
  by rewrite !parse_index_group in H.
Qed.

Lemma elem_of_spec_rows_from first cls r :
  r ∈ spec_rows_from first cls ->
  exists j cl, cls !! j = Some cl /\ r ∈ spec_rows_of (first + j) cl.
Proof.
  revert first. induction cls as [|cl cls IH]; intros first Hr.
  - by apply elem_of_nil in Hr.
  - simpl in Hr. apply elem_of_app in Hr as [Hr|Hr].
    + exists 0, cl. by rewrite Nat.add_0_r.
    + destruct (IH _ Hr) as (j & cl' & Hj & Hin).
      exists (S j), cl'. split; [done|].
      by replace (first + S j) with (S first + j) by lia.
Qed.

(** X10: in the rows flattened from well-formed card lists, the group
    prefix of a row is the position of the card list it comes from among
    all the accepted lists, a list without cards included: such a list
    gives no row, and its number appears in no index. *)
Theorem group_prefix_names_the_list (cls : list CardList) (rows : list row) :
  flatten_card_lists 1 (val_CardList <$> cls)
    {| index := None; flattened_data := [] |} = Ok rows ->
  (forall r j,
     r ∈ rows -> in_group (S j) (Index r) ->
     exists cl, cls !! j = Some cl /\ r ∈ spec_rows_of (S j) cl) /\
  (forall j cl r,
     cls !! j = Some cl -> cards cl = [] -> r ∈ rows ->
     ~ in_group (S j) (Index r)).
Proof.
  rewrite flatten_card_lists_typed. intros [= <-]. cbn [flattened_data app].
  assert (forall r j,
            r ∈ spec_rows_from 1 cls -> in_group (S j) (Index r) ->
            exists cl, cls !! j = Some cl /\ r ∈ spec_rows_of (S j) cl)
    as Hsource.
  { intros r j Hr Hgroup.
    destruct (elem_of_spec_rows_from _ _ _ Hr) as (j' & cl & Hj' & Hin).
    pose proof (spec_rows_of_group _ _ _ Hin) as Hgroup'.
    pose proof (in_group_unique _ _ _ Hgroup Hgroup') as Heq.
    assert (j' = j) as -> by lia. eauto. }
  split; [exact Hsource|].
  intros j cl r Hj Hempty Hr Hgroup.
  destruct (Hsource r j Hr Hgroup) as (cl' & Hj' & Hin).
  rewrite Hj in Hj'. injection Hj' as <-.
  unfold spec_rows_of in Hin. rewrite Hempty in Hin.
  by apply elem_of_nil in Hin.
Qed.

Lemma group_prefix_names_the_list_witness :
  Index <$> spec_rows [no_cards; three_cards] = ["2.1"; "2.2"; "2.3"] /\
  forall r, r ∈ spec_rows [no_cards; three_cards] ->
            ~ in_group 1 (Index r).
Proof.
  split; [reflexivity|]. intros r.
  exact (proj2 (group_prefix_names_the_list [no_cards; three_cards]
                  (spec_rows [no_cards; three_cards]) eq_refl)
           0 no_cards r eq_refl eq_refl).
Defined.

(** ** The index strings as sort keys *)

Lemma is_digit_char d : (d < 10)%N -> is_digit (pretty_N_char d) = true.
Proof.
  intros Hd.
  assert (d = 0 \/ d = 1 \/ d = 2 \/ d = 3 \/ d = 4 \/ d = 5 \/ d = 6
          \/ d = 7 \/ d = 8 \/ d = 9)%N as H by lia.
  repeat (destruct H as [->|H]; [reflexivity|]). by subst.
Qed.

Lemma all_digits_pretty_go x s :
  all_digits s = true -> all_digits (pretty_N_go x s) = true.
Proof.
  revert s. induction (N.lt_wf_0 x) as [x _ IH]; intros s Hs.
  destruct (decide (x = 0)%N) as [->|Hx]; [by rewrite pretty_N_go_0|].
  rewrite pretty_N_go_step by lia.
  apply IH; [apply N.div_lt; lia|].
  simpl. rewrite is_digit_char by (apply N.mod_lt; lia). exact Hs.
Qed.

Lemma all_digits_str_nat n : all_digits (str_nat n) = true.
Proof.
  unfold str_nat, pretty, pretty_nat, pretty, pretty_N.
  case_decide; [reflexivity|]. by apply all_digits_pretty_go.
Qed.

Lemma all_digits_app a b :
  all_digits a = true -> all_digits b = true -> all_digits (a +:+ b) = true.
Proof.
  intros Ha Hb. induction a as [|c a IH]; [done|].
  rewrite string_app_cons. simpl in *.
  apply andb_true_iff in Ha as [-> Ha]. by apply IH.
Qed.

Lemma all_digits_zeros n : all_digits (zeros n) = true.
Proof. induction n as [|n IH]; [done|]. simpl. exact IH. Qed.

Lemma all_digits_padded i width :
  all_digits (format_zero_padded i width) = true.
Proof.
  unfold format_zero_padded.
  apply all_digits_app; [apply all_digits_zeros|apply all_digits_str_nat].
Qed.

Lemma decimal_value_acc acc s :
  decimal_value acc s
  = (acc * 10 ^ N.of_nat (String.length s) + decimal_value 0 s)%N.
Proof.
  revert acc. induction s as [|c s IH]; intros acc.
  - simpl. lia.
  - cbn [decimal_value String.length].
    rewrite (IH (10 * acc + digit_value c)%N), (IH (10 * 0 + digit_value c)%N).
    rewrite Nat2N.inj_succ, N.pow_succ_r'. lia.
Qed.

Lemma decimal_value_bound s :
  all_digits s = true ->
  (decimal_value 0 s < 10 ^ N.of_nat (String.length s))%N.
Proof.
  induction s as [|c s IH]; intros Hs.
  - simpl. lia.
  - simpl in Hs. apply andb_true_iff in Hs as [Hc Hs].
    specialize (IH Hs). cbn [decimal_value String.length].
    rewrite decimal_value_acc, Nat2N.inj_succ, N.pow_succ_r'.
    unfold is_digit in Hc. apply andb_true_iff in Hc as [H1 H2].
    apply N.leb_le in H1, H2. unfold digit_value. nia.
Qed.

(** On digit strings of one length the order of the strings is the order
    of the numbers. *)
Lemma compare_digits a b :
  all_digits a = true -> all_digits b = true ->
  String.length a = String.length b ->
  (decimal_value 0 a < decimal_value 0 b)%N ->
  String.compare a b = Lt.
Proof.
  revert b. induction a as [|c a IH]; intros [|c' b] Ha Hb Hlen Hlt;
    simpl in Hlen; try discriminate Hlen.
  { simpl in Hlt. lia. }
  simpl in Ha, Hb. apply andb_true_iff in Ha as [Hc Ha].
  apply andb_true_iff in Hb as [Hc' Hb]. injection Hlen as Hlen.
  pose proof (decimal_value_bound _ Ha) as Hba.
  pose proof (decimal_value_bound _ Hb) as Hbb.
  cbn [decimal_value] in Hlt.
  rewrite (decimal_value_acc _ a), (decimal_value_acc _ b), Hlen in Hlt.
  rewrite Hlen in Hba.
  unfold is_digit in Hc, Hc'.
  apply andb_true_iff in Hc as [H1 H2]. apply andb_true_iff in Hc' as [H1' H2'].
  apply N.leb_le in H1, H2, H1', H2'. unfold digit_value in Hlt.
  simpl. unfold Ascii.compare.
  destruct (N.compare_spec (N_of_ascii c) (N_of_ascii c')) as [Heq|Hl|Hg].
  - apply IH; try done. rewrite Heq in Hlt. nia.
  - reflexivity.
  - exfalso. nia.
Qed.

Lemma compare_app_prefix p a b :
  String.compare (p +:+ a) (p +:+ b) = String.compare a b.
Proof.
  induction p as [|c p IH]; [done|].
  rewrite !string_app_cons. simpl.
  unfold Ascii.compare. by rewrite N.compare_refl.
Qed.

(** X11: within one card list the index strings sort, as character
    strings, in the order of the cards: the zero padding makes the row of
    an earlier card compare below the row of a later card of that list. *)
Theorem indices_sort_in_card_order
    (k : nat) (cl : CardList) (p q : nat) (r r' : row) :
  p < q ->
  spec_rows_of k cl !! p = Some r ->
  spec_rows_of k cl !! q = Some r' ->
  String.compare (Index r) (Index r') = Lt.
Proof.
  unfold spec_rows_of. rewrite !list_lookup_imap. intros Hpq Hp Hq.
  destruct (cards cl !! p) as [c|] eqn:Hcp; [|done].
  destruct (cards cl !! q) as [c'|] eqn:Hcq; [|done].
  injection Hp as <-. injection Hq as <-.
  apply lookup_lt_Some in Hcp, Hcq. cbn [spec_row Index].
  rewrite <- !string_app_assoc, compare_app_prefix.
  apply compare_digits; try apply all_digits_padded.
  - rewrite !format_zero_padded_length; [done|lia..].
  - rewrite !decimal_value_padded. lia.
Qed.

Lemma indices_sort_in_card_order_witness :
  String.compare "1.09" "1.10" = Lt.
Proof.
  exact (indices_sort_in_card_order 1 ten_cards 8 9 _ _ ltac:(lia)
           eq_refl eq_refl).
Defined.

(** X12: the index format is injective: two index strings that are equal
    were formatted from the same group number and the same card number,
    whatever the padding widths. *)
Theorem index_determines_position (k i width k' i' width' : nat) :
  fstring [str_nat k; "."; format_zero_padded i width]
  = fstring [str_nat k'; "."; format_zero_padded i' width'] ->
  k = k' /\ i = i'.
Proof.
  change (fstring [str_nat k; "."; format_zero_padded i width])
    with (str_nat k +:+ "." +:+ format_zero_padded i width).
  change (fstring [str_nat k'; "."; format_zero_padded i' width'])
    with (str_nat k' +:+ "." +:+ format_zero_padded i' width').
  intros H. apply (f_equal parse_index) in H.
  rewrite !parse_index_format in H. by injection H.
Qed.

Lemma index_determines_position_witness :
  fstring [str_nat 12; "."; format_zero_padded 7 1]
  = fstring [str_nat 12; "."; format_zero_padded 7 0] /\
  12 = 12 /\ 7 = 7.
Proof.
  split; [reflexivity|].
  exact (index_determines_position 12 7 1 12 7 0 eq_refl).
Defined.

(** ** A negative topic count *)

(** X13: a negative topic count -n does not give an empty topic list: the
    slice drops the last n labels, and a card request is issued for every
    label before them. *)
Theorem negative_topic_number_drops_last
    (OpenAI : string -> client) (py_format : pyval -> string)
    (key subject : string) (topic_number cards_per_topic : Z)
    (pref : string) (w : world) (t : Topics) :
  key <> EmptyString ->
  (topic_number < 0)%Z ->
  topics_success
    (OpenAI key (calls w) (topic_request subject pref topic_number)) t ->
  calls (snd (generate_cards OpenAI py_format key subject topic_number
                cards_per_topic pref w))
  = calls w ++ topic_request subject pref topic_number
               :: (card_request py_format subject pref cards_per_topic
                     <$> (VStr <$> take (length (spec_labels t)
                                         - Z.to_nat (- topic_number))
                                     (spec_labels t))).
Proof.
  intros Hkey Hn Htopics. rewrite generate_cards_run by exact Hkey.
  rewrite (topics_of_typed _ _ _ Htopics).
  destruct (topics_result t) as [|s ss] eqn:Hres.
  - unfold spec_labels. rewrite Hres. simpl. by rewrite ?take_nil.
  - cbn [snd calls record_calls show]. unfold slice_upto.
    destruct (Z.leb_spec 0 topic_number); [lia|].
    by rewrite length_fmap, !fmap_take.
Qed.

Lemma negative_topic_number_drops_last_witness :
  length (calls (snd (generate_cards
                        (fun _ => script_client
                           [Returns (completion_of (val_Topics five_groups))])
                        format_label "sk-key" "SQL" (-2) 2 "beginner"
                        initial_world)))
  = 4.
Proof.
  assert ("sk-key" <> EmptyString) as Hkey by discriminate.
  assert (-2 < 0)%Z as Hn by lia.
  by rewrite (negative_topic_number_drops_last
                (fun _ => script_client
                   [Returns (completion_of (val_Topics five_groups))])
                format_label "sk-key" "SQL" (-2) 2 "beginner" initial_world
                five_groups Hkey Hn (ex_intro _ _ (conj eq_refl eq_refl))).
Defined.

(** ** More on the export step *)

(** X14: an export issues no API call, shows exactly one notification and
    leaves every file other than [anki_deck.csv] as it was. *)
Theorem export_touches_only_its_file (d : dataframe) (w : world) :
  let w' := snd (export_csv d w) in
  calls w' = calls w /\
  (exists n, notices w' = notices w ++ [n]) /\
  (forall path, path <> "anki_deck.csv" -> files w' !! path = files w !! path).
Proof.
  unfold export_csv. destruct (Nat.ltb (length (data d)) MIN_ROWS).
  - split_and!; [done|by eexists|done].
  - split_and!; [done|by eexists|].
    intros path Hpath. cbn. by rewrite lookup_insert_ne.
Qed.

Lemma export_touches_only_its_file_witness :
  let d := {| columns := ["Index"];
              data := [[VStr "1.1"]; [VStr "1.2"]] |} in
  let w := write_file "notes.txt" [[VStr "keep"]] initial_world in
  files (snd (export_csv d w)) !! "notes.txt" = Some [[VStr "keep"]].
Proof.
  intros d w.
  rewrite (proj2 (proj2 (export_touches_only_its_file d w)) "notes.txt")
    by discriminate.
  reflexivity.
Defined.

(** X15: the export does not append: after two exports, the second one of
    a table of at least two rows, the files are what the second export
    alone would have left, whatever the first table was. *)
Theorem export_last_write_wins (d1 d2 : dataframe) (w : world) :
  2 <= length (data d2) ->
  files (snd (export_csv d2 (snd (export_csv d1 w))))
  = files (snd (export_csv d2 w)) /\
  files (snd (export_csv d2 (snd (export_csv d1 w)))) !! "anki_deck.csv"
  = Some (csv_lines d2).
Proof.
  intros Hlen. unfold export_csv, MIN_ROWS.
  apply Nat.ltb_ge in Hlen. rewrite Hlen.
  destruct (Nat.ltb (length (data d1)) 2); cbn.
  - split; [done|]. apply lookup_insert_eq.
  - split; [apply insert_insert_eq|]. apply lookup_insert_eq.
Qed.

Lemma export_last_write_wins_witness :
  let d1 := {| columns := ["Index"];
               data := [[VStr "1.1"]; [VStr "1.2"]; [VStr "1.3"]] |} in
  let d2 := {| columns := ["Index"];
               data := [[VStr "1.1"]; [VStr "1.2"]] |} in
  files (snd (export_csv d2 (snd (export_csv d1 initial_world))))
    !! "anki_deck.csv"
  = Some [[VStr "Index"]; [VStr "1.1"]; [VStr "1.2"]].
Proof.
  intros d1 d2.
  exact (proj2 (export_last_write_wins d1 d2 initial_world ltac:(simpl; lia))).
Defined.

(** ** The range of the indices *)

Lemma flatten_card_within lo hi k width topic_label i card st r st' :
  flatten_card k width topic_label i card st = (r, st') ->
  lo <= k <= hi -> 1 <= i ->
  Forall (index_within lo hi) (flattened_data st) ->
  Forall (index_within lo hi) (flattened_data st').
Proof.
  unfold flatten_card. intros Hrun Hk Hi Hall.
  destruct (_ <- getattr card "front" ;; _)%res as [newrow|e] eqn:Hrow;
    injection Hrun as <- <-; simpl; [|done].
  apply Forall_app. split; [done|]. apply Forall_singleton.
  exists k, i, width. split_and!; try done; try lia.
  unfold res_bind in Hrow. repeat case_match; simplify_eq. reflexivity.
Qed.

Lemma flatten_cards_within lo hi k width topic_label cards i st r st' :
  flatten_cards k width topic_label i cards st = (r, st') ->
  lo <= k <= hi -> 1 <= i ->
  Forall (index_within lo hi) (flattened_data st) ->
  Forall (index_within lo hi) (flattened_data st').
Proof.
  revert i st. induction cards as [|card cards IH]; intros i st Hrun Hk Hi Hall.
  - by injection Hrun as <- <-.
  - cbn [flatten_cards] in Hrun.
    destruct (flatten_card k width topic_label i card st) as [[[]|e] st1] eqn:Hcard;
      pose proof (flatten_card_within _ _ _ _ _ _ _ _ _ _ Hcard Hk Hi Hall).
    + eapply IH; [exact Hrun|done|lia|done].
    + by injection Hrun as <- <-.
Qed.

Lemma flatten_card_lists_within lo hi k all_card_lists st rows :
  flatten_card_lists k all_card_lists st = Ok rows ->
  lo <= k -> k + length all_card_lists <= S hi ->
  Forall (index_within lo hi) (flattened_data st) ->
  Forall (index_within lo hi) rows.
Proof.
  revert k st. induction all_card_lists as [|card_list rest IH];
    intros k st Hrun Hlo Hhi Hall.
  - by injection Hrun as <-.
  - cbn [flatten_card_lists] in Hrun. cbn [length] in Hhi.
    assert (Forall (index_within lo hi)
              (flattened_data (flatten_card_list k card_list st).2)) as Hall'.
    { unfold flatten_card_list.
      destruct (_ <- getattr card_list "topic" ;; _)%res
        as [[[topic_label total] items]|e]; [|done].
      destruct (flatten_cards k _ topic_label 1 items st) as [r st1] eqn:Hc.
      eapply flatten_cards_within; [exact Hc|lia|lia|done]. }
    destruct (flatten_card_list k card_list st) as [[[]|e] st1].
    + eapply IH; [exact Hrun|lia|lia|done].
    + destruct (index st1); [|done].
      eapply IH; [exact Hrun|lia|lia|done].
Qed.

Lemma omap_length_le {A B} (f : A -> option B) (l : list A) :
  length (omap f l) <= length l.
Proof.
  induction l as [|x l IH]; [done|]. cbn [omap list_omap].
  destruct (f x); simpl; lia.
Qed.

(** X16: with a non-negative topic count N, every row a run returns,
    whatever the API answered, carries an index ["k.i"] with a group number
    k between 1 and N and a card number i of at least 1. *)
Theorem indices_within_topic_count
    (OpenAI : string -> client) (py_format : pyval -> string)
    (key subject : string) (topic_number cards_per_topic : Z)
    (pref : string) (w w' : world) (rows : list row) :
  (0 <= topic_number)%Z ->
  generate_cards OpenAI py_format key subject topic_number cards_per_topic
    pref w = (Ok (Rows rows), w') ->
  Forall (index_within 1 (Z.to_nat topic_number)) rows.
Proof.
  intros Hn. destruct (decide (key = EmptyString)) as [->|Hkey].
  { by rewrite generate_cards_without_key. }
  rewrite generate_cards_run by exact Hkey.
  destruct (topics_of _ _) as [[topic_list|]|e] eqn:Htopics; [| |done].
  - destruct (flatten_card_lists _ _ _) as [rows'|e] eqn:Hflat; [|done].
    intros [= <- _].
    eapply flatten_card_lists_within; [exact Hflat|lia| |by constructor].
    pose proof (topics_of_length _ _ _ Htopics Hn) as Hlen.
    pose proof (omap_length_le accepted
                  (answers (OpenAI key)
                     (calls w ++ [topic_request subject pref topic_number])
                     (card_request py_format subject pref cards_per_topic
                        <$> topic_list))) as Hle.
    rewrite answers_length, length_fmap in Hle. lia.
  - intros [= <- _]. constructor.
Qed.

Lemma indices_within_topic_count_witness :
  exists rows,
    fst (generate_cards (fun _ => second_fails) format_label "sk-key" "SQL" 3
           2 "beginner" initial_world) = Ok (Rows rows) /\
    length rows = 13 /\
    Forall (index_within 1 3) rows.
Proof.
  set (run := generate_cards (fun _ => second_fails) format_label "sk-key"
                "SQL" 3 2 "beginner" initial_world).
  set (rows := match fst run with Ok (Rows r) => r | _ => [] end).
  assert (run = (Ok (Rows rows), snd run)) as Hrun by (vm_compute; reflexivity).
  exists rows. split; [by rewrite Hrun|]. split; [reflexivity|].
  exact (indices_within_topic_count (fun _ => second_fails) format_label
           "sk-key" "SQL" 3 2 "beginner" initial_world (snd run) rows
           ltac:(lia) Hrun).
Defined.

(** ** What the inputs reach *)

(** X17: the subject, the preference text and the number of cards per topic
    reach the request texts only: against a client that plays a fixed list
    of answers, two runs that differ in them return the same value (the
    same rows, or the same exception). *)
Theorem inputs_reach_the_prompts_only
    (script : list api_outcome) (py_format : pyval -> string)
    (key subject subject' pref pref' : string)
    (topic_number cards_per_topic cards_per_topic' : Z) (w : world) :
  fst (generate_cards (fun _ => script_client script) py_format key subject
         topic_number cards_per_topic pref w)
  = fst (generate_cards (fun _ => script_client script) py_format key subject'
           topic_number cards_per_topic' pref' w).
Proof.
  destruct (decide (key = EmptyString)) as [->|Hkey]; [done|].
  rewrite !generate_cards_run by exact Hkey.
  change (script_client script (calls w)
            (topic_request subject pref topic_number))
    with (script_client script (calls w)
            (topic_request subject' pref' topic_number)).
  destruct (topics_of _ _) as [[topic_list|]|e]; [|done..].
  cbn [fst].
  by rewrite (answers_script script _
                (calls w ++ [topic_request subject' pref' topic_number]) _
                (card_request py_format subject' pref' cards_per_topic'
                   <$> topic_list))
    by (by rewrite ?length_app, ?length_fmap).
Qed.
